(** * FinPace: the client-side store reducers and the summary pages

    A shallow embedding of the parts of the FinPace front end that carry
    arithmetic: the investments, budgets and goals slices of the Redux store
    and the totals computed by the Dashboard and Transactions pages.

    A TypeScript [number] is an IEEE 754 binary64 value; it is embedded as
    Rocq's primitive [float], so [0 / 0] is NaN and [x / 0] is an infinity,
    exactly as in the browser. *)

From Stdlib Require Import ZArith List String Bool.
From Stdlib Require Import Floats.
Import ListNotations.
Open Scope string_scope.
Open Scope list_scope.
Open Scope float_scope.

(** ** Numbers *)

Module Number.

Definition number : Type := float.

(** [a === b] on two numbers. *)
Definition strict_eq (a b : number) : bool := PrimFloat.eqb a b.

(** [a > b]. *)
Definition gt (a b : number) : bool := PrimFloat.ltb b a.

(** [a <= b]. *)
Definition le (a b : number) : bool := PrimFloat.leb a b.

Definition isNaN (a : number) : bool := PrimFloat.is_nan a.

(** The sign bit of a zero, to tell [-0] from [+0]. *)
Definition is_neg_zero (a : number) : bool :=
  match Prim2SF a with
  | S754_zero true => true
  | _ => false
  end.

(** [Math.min(a, b)]: NaN when either argument is NaN, and [-0] is
    smaller than [+0]. *)
Definition Math_min (a b : number) : number :=
  if isNaN a || isNaN b then PrimFloat.nan
  else if PrimFloat.ltb a b then a
  else if PrimFloat.ltb b a then b
  else if is_neg_zero a then a
  else b.

End Number.
Import Number.

(** ** Arithmetic with a record of the divisions performed

    The reducers are embedded in a writer monad: a computation returns its
    value together with the divisors of every [/] it evaluated, in order.
    Nothing else is an effect in a reducer. *)

Module Traced.

Definition traced (A : Type) : Type := (A * list number)%type.

Definition ret {A : Type} (a : A) : traced A := (a, []).

Definition bind {A B : Type} (m : traced A) (k : A -> traced B) : traced B :=
  let (a, d1) := m in
  let (b, d2) := k a in
  (b, d1 ++ d2).

(** [a / b], recording the divisor. *)
Definition divide (a b : number) : traced number := ((a / b)%float, [b]).

Definition value {A : Type} (m : traced A) : A := fst m.
Definition divisors {A : Type} (m : traced A) : list number := snd m.

(** [Array.prototype.map] with a callback that may divide. *)
Fixpoint array_map {A B : Type} (f : A -> traced B) (l : list A)
  : traced (list B) :=
  match l with
  | [] => ret []
  | x :: xs =>
      bind (f x) (fun y =>
      bind (array_map f xs) (fun ys =>
      ret (y :: ys)))
  end.

End Traced.
Import Traced.

Notation "x <- m ;; k" := (bind m (fun x => k))
  (at level 61, m at next level, right associativity).

(** ** Object properties

    A property declared [p?: T | null] is absent, [null] or a value. *)

Inductive optional (A : Type) : Type :=
| absent : optional A
| null : optional A
| present : A -> optional A.

Arguments absent {A}.
Arguments null {A}.
Arguments present {A} _.

(** ** The investments slice (store/slices/investmentsSlice.ts) *)

Module Investments.

Record Investment : Type := {
  id : number;
  ticker : string;
  quantity : number;
  avg_buy_price : number;
  asset_type : string;
  purchase_date : optional string;
  notes : optional string;
  user_id : number;
  created_at : string;
  updated_at : optional string
}.

(** [InvestmentWithMarketData extends Investment]: the inherited properties
    are kept together in [base]. *)
Record InvestmentWithMarketData : Type := {
  base : Investment;
  current_price : number;
  market_value : number;
  profit_loss : number;
  profit_loss_percentage : number;
  last_updated : string;
  error_flag : option string  (* [error?: string] *)
}.

Record InvestmentsState : Type := {
  investments : list Investment;
  portfolioWithMarketData : list InvestmentWithMarketData;
  investment : option Investment;
  loading : bool;
  error : option string
}.

Definition initialState : InvestmentsState := {|
  investments := [];
  portfolioWithMarketData := [];
  investment := None;
  loading := false;
  error := None
|}.

(** The actions the slice handles; a rejected thunk carries the value given
    to [rejectWithValue]. *)
Inductive Action : Type :=
| clearInvestmentError
| clearCurrentInvestment
| getInvestments_pending
| getInvestments_fulfilled (payload : list Investment)
| getInvestments_rejected (payload : string)
| getPortfolioWithMarketData_pending
| getPortfolioWithMarketData_fulfilled (payload : list InvestmentWithMarketData)
| getPortfolioWithMarketData_rejected (payload : string)
| getInvestment_pending
| getInvestment_fulfilled (payload : Investment)
| getInvestment_rejected (payload : string)
| createInvestment_pending
| createInvestment_fulfilled (payload : Investment)
| createInvestment_rejected (payload : string)
| updateInvestment_pending
| updateInvestment_fulfilled (payload : Investment)
| updateInvestment_rejected (payload : string)
| deleteInvestment_pending
| deleteInvestment_fulfilled (payload : number)
| deleteInvestment_rejected (payload : string).

Definition pending (state : InvestmentsState) : InvestmentsState := {|
  investments := investments state;
  portfolioWithMarketData := portfolioWithMarketData state;
  investment := investment state;
  loading := true;
  error := None
|}.

Definition rejected (state : InvestmentsState) (payload : string)
  : InvestmentsState := {|
  investments := investments state;
  portfolioWithMarketData := portfolioWithMarketData state;
  investment := investment state;
  loading := false;
  error := Some payload
|}.

(** [state.investment?.id === id] *)
Definition current_has_id (state : InvestmentsState) (i : number) : bool :=
  match investment state with
  | Some inv => strict_eq (id inv) i
  | None => false
  end.

(** The callback of the [portfolioWithMarketData.map] of
    [updateInvestment.fulfilled]. *)
Definition recalculate (payload : Investment)
  (investment : InvestmentWithMarketData) : traced InvestmentWithMarketData :=
  if strict_eq (id (base investment)) (id payload) then
    let currentPrice := current_price investment in
    let marketValue := (quantity payload * currentPrice)%float in
    let costBasis := (quantity payload * avg_buy_price payload)%float in
    let profitLoss := (marketValue - costBasis)%float in
    q <- divide profitLoss costBasis ;;
    let profitLossPercentage := (q * 100)%float in
    ret {| base := payload;
           current_price := currentPrice;
           market_value := marketValue;
           profit_loss := profitLoss;
           profit_loss_percentage := profitLossPercentage;
           last_updated := last_updated investment;
           error_flag := None |}
  else ret investment.

Definition reducer (state : InvestmentsState) (action : Action)
  : traced InvestmentsState :=
  match action with
  | clearInvestmentError =>
      ret {| investments := investments state;
             portfolioWithMarketData := portfolioWithMarketData state;
             investment := investment state;
             loading := loading state;
             error := None |}
  | clearCurrentInvestment =>
      ret {| investments := investments state;
             portfolioWithMarketData := portfolioWithMarketData state;
             investment := None;
             loading := loading state;
             error := error state |}
  | getInvestments_pending | getPortfolioWithMarketData_pending
  | getInvestment_pending | createInvestment_pending
  | updateInvestment_pending | deleteInvestment_pending =>
      ret (pending state)
  | getInvestments_rejected payload
  | getPortfolioWithMarketData_rejected payload
  | getInvestment_rejected payload
  | createInvestment_rejected payload
  | updateInvestment_rejected payload
  | deleteInvestment_rejected payload =>
      ret (rejected state payload)
  | getInvestments_fulfilled payload =>
      ret {| investments := payload;
             portfolioWithMarketData := portfolioWithMarketData state;
             investment := investment state;
             loading := false;
             error := error state |}
  | getPortfolioWithMarketData_fulfilled payload =>
      ret {| investments := investments state;
             portfolioWithMarketData := payload;
             investment := investment state;
             loading := false;
             error := error state |}
  | getInvestment_fulfilled payload =>
      ret {| investments := investments state;
             portfolioWithMarketData := portfolioWithMarketData state;
             investment := Some payload;
             loading := false;
             error := error state |}
  | createInvestment_fulfilled payload =>
      ret {| investments := investments state ++ [payload];
             portfolioWithMarketData := portfolioWithMarketData state;
             investment := investment state;
             loading := false;
             error := error state |}
  | updateInvestment_fulfilled payload =>
      let investment' :=
        if current_has_id state (id payload) then Some payload
        else investment state in
      let investments' :=
        map (fun investment =>
               if strict_eq (id investment) (id payload) then payload
               else investment)
            (investments state) in
      portfolio' <- array_map (recalculate payload)
                              (portfolioWithMarketData state) ;;
      ret {| investments := investments';
             portfolioWithMarketData := portfolio';
             investment := investment';
             loading := false;
             error := error state |}
  | deleteInvestment_fulfilled payload =>
      ret {| investments :=
               filter (fun investment =>
                         negb (strict_eq (id investment) payload))
                      (investments state);
             portfolioWithMarketData :=
               filter (fun investment =>
                         negb (strict_eq (id (base investment)) payload))
                      (portfolioWithMarketData state);
             investment :=
               if current_has_id state payload then None
               else investment state;
             loading := false;
             error := error state |}
  end.

(** The rejection value of a rejected action. *)
Definition rejection (action : Action) : option string :=
  match action with
  | getInvestments_rejected payload
  | getPortfolioWithMarketData_rejected payload
  | getInvestment_rejected payload
  | createInvestment_rejected payload
  | updateInvestment_rejected payload
  | deleteInvestment_rejected payload => Some payload
  | _ => None
  end.

End Investments.

(** ** The budgets slice (store/slices/budgetsSlice.ts) *)

Module Budgets.

Record Budget : Type := {
  id : number;
  category_id : number;
  amount : number;
  month : number;
  year : number;
  user_id : number;
  created_at : string;
  updated_at : optional string
}.

(** [BudgetWithCategory extends Budget] *)
Record BudgetWithCategory : Type := {
  budget_of : Budget;
  category_name : string
}.

(** [BudgetWithProgress extends BudgetWithCategory] *)
Record BudgetWithProgress : Type := {
  base : BudgetWithCategory;
  spent_amount : number;
  remaining_amount : number;
  percentage_used : number
}.

Record BudgetsState : Type := {
  budgets : list BudgetWithCategory;
  budgetsWithProgress : list BudgetWithProgress;
  budget : option BudgetWithCategory;
  loading : bool;
  error : option string
}.

Definition initialState : BudgetsState := {|
  budgets := [];
  budgetsWithProgress := [];
  budget := None;
  loading := false;
  error := None
|}.

Inductive Action : Type :=
| clearBudgetError
| clearCurrentBudget
| getBudgets_pending
| getBudgets_fulfilled (payload : list BudgetWithCategory)
| getBudgets_rejected (payload : string)
| getBudgetsWithProgress_pending
| getBudgetsWithProgress_fulfilled (payload : list BudgetWithProgress)
| getBudgetsWithProgress_rejected (payload : string)
| getBudget_pending
| getBudget_fulfilled (payload : BudgetWithCategory)
| getBudget_rejected (payload : string)
| createBudget_pending
| createBudget_fulfilled (payload : Budget)
| createBudget_rejected (payload : string)
| updateBudget_pending
| updateBudget_fulfilled (payload : Budget)
| updateBudget_rejected (payload : string)
| deleteBudget_pending
| deleteBudget_fulfilled (payload : number)
| deleteBudget_rejected (payload : string).

(** [{ ...b, ...payload }] on the properties of [Budget]: every property the
    payload has overwrites the old one; [updated_at] is the only one it may
    lack. *)
Definition spread (b payload : Budget) : Budget := {|
  id := id payload;
  category_id := category_id payload;
  amount := amount payload;
  month := month payload;
  year := year payload;
  user_id := user_id payload;
  created_at := created_at payload;
  updated_at := match updated_at payload with
                | absent => updated_at b
                | v => v
                end
|}.

Definition spread_category (b : BudgetWithCategory) (payload : Budget)
  : BudgetWithCategory := {|
  budget_of := spread (budget_of b) payload;
  category_name := category_name b
|}.

Definition spread_progress (b : BudgetWithProgress) (payload : Budget)
  : BudgetWithProgress := {|
  base := spread_category (base b) payload;
  spent_amount := spent_amount b;
  remaining_amount := remaining_amount b;
  percentage_used := percentage_used b
|}.

Definition pending (state : BudgetsState) : BudgetsState := {|
  budgets := budgets state;
  budgetsWithProgress := budgetsWithProgress state;
  budget := budget state;
  loading := true;
  error := None
|}.

Definition rejected (state : BudgetsState) (payload : string)
  : BudgetsState := {|
  budgets := budgets state;
  budgetsWithProgress := budgetsWithProgress state;
  budget := budget state;
  loading := false;
  error := Some payload
|}.

Definition reducer (state : BudgetsState) (action : Action) : BudgetsState :=
  match action with
  | clearBudgetError =>
      {| budgets := budgets state;
         budgetsWithProgress := budgetsWithProgress state;
         budget := budget state;
         loading := loading state;
         error := None |}
  | clearCurrentBudget =>
      {| budgets := budgets state;
         budgetsWithProgress := budgetsWithProgress state;
         budget := None;
         loading := loading state;
         error := error state |}
  | getBudgets_pending | getBudgetsWithProgress_pending | getBudget_pending
  | createBudget_pending | updateBudget_pending | deleteBudget_pending =>
      pending state
  | getBudgets_rejected payload
  | getBudgetsWithProgress_rejected payload
  | getBudget_rejected payload
  | createBudget_rejected payload
  | updateBudget_rejected payload
  | deleteBudget_rejected payload =>
      rejected state payload
  | getBudgets_fulfilled payload =>
      {| budgets := payload;
         budgetsWithProgress := budgetsWithProgress state;
         budget := budget state;
         loading := false;
         error := error state |}
  | getBudgetsWithProgress_fulfilled payload =>
      {| budgets := budgets state;
         budgetsWithProgress := payload;
         budget := budget state;
         loading := false;
         error := error state |}
  | getBudget_fulfilled payload =>
      {| budgets := budgets state;
         budgetsWithProgress := budgetsWithProgress state;
         budget := Some payload;
         loading := false;
         error := error state |}
  | createBudget_fulfilled _ =>
      {| budgets := budgets state;
         budgetsWithProgress := budgetsWithProgress state;
         budget := budget state;
         loading := false;
         error := error state |}
  | updateBudget_fulfilled payload =>
      {| budgets :=
           map (fun budget =>
                  if strict_eq (id (budget_of budget)) (id payload)
                  then spread_category budget payload
                  else budget)
               (budgets state);
         budgetsWithProgress :=
           map (fun budget =>
                  if strict_eq (id (budget_of (base budget))) (id payload)
                  then spread_progress budget payload
                  else budget)
               (budgetsWithProgress state);
         budget :=
           match budget state with
           | Some b =>
               if strict_eq (id (budget_of b)) (id payload)
               then Some (spread_category b payload)
               else Some b
           | None => None
           end;
         loading := false;
         error := error state |}
  | deleteBudget_fulfilled payload =>
      {| budgets :=
           filter (fun budget =>
                     negb (strict_eq (id (budget_of budget)) payload))
                  (budgets state);
         budgetsWithProgress :=
           filter (fun budget =>
                     negb (strict_eq (id (budget_of (base budget))) payload))
                  (budgetsWithProgress state);
         budget :=
           match budget state with
           | Some b =>
               if strict_eq (id (budget_of b)) payload then None else Some b
           | None => None
           end;
         loading := false;
         error := error state |}
  end.

Definition rejection (action : Action) : option string :=
  match action with
  | getBudgets_rejected payload
  | getBudgetsWithProgress_rejected payload
  | getBudget_rejected payload
  | createBudget_rejected payload
  | updateBudget_rejected payload
  | deleteBudget_rejected payload => Some payload
  | _ => None
  end.

(** [remaining_amount = amount - spent_amount], bit for bit. *)
Definition remaining_consistent (b : BudgetWithProgress) : Prop :=
  remaining_amount b = (amount (budget_of (base b)) - spent_amount b)%float.

End Budgets.

(** ** The goals slice (store/slices/goalsSlice.ts) *)

Module Goals.

Record Goal : Type := {
  id : number;
  name : string;
  description : option string;
  target_amount : number;
  current_amount : number;
  deadline : optional string;
  status : string;
  user_id : number;
  created_at : string;
  updated_at : optional string
}.

(** [GoalWithProgress extends Goal] *)
Record GoalWithProgress : Type := {
  base : Goal;
  progress_percentage : number
}.

Record GoalsState : Type := {
  goals : list GoalWithProgress;
  goal : option GoalWithProgress;
  loading : bool;
  error : option string
}.

(** [target_amount > 0 ? (current_amount / target_amount) * 100 : 0] *)
Definition progressPercentage (payload : Goal) : traced number :=
  if gt (target_amount payload) 0%float then
    q <- divide (current_amount payload) (target_amount payload) ;;
    ret (q * 100)%float
  else ret 0%float.

Definition createGoal_fulfilled (state : GoalsState) (payload : Goal)
  : traced GoalsState :=
  progressPercentage <- progressPercentage payload ;;
  ret {| goals := goals state ++
                  [{| base := payload;
                      progress_percentage := progressPercentage |}];
         goal := goal state;
         loading := false;
         error := error state |}.

Definition updateGoal_fulfilled (state : GoalsState) (payload : Goal)
  : traced GoalsState :=
  progressPercentage <- progressPercentage payload ;;
  let updated := {| base := payload;
                    progress_percentage := progressPercentage |} in
  ret {| goals :=
           map (fun goal =>
                  if strict_eq (id (base goal)) (id payload) then updated
                  else goal)
               (goals state);
         goal :=
           match goal state with
           | Some g =>
               if strict_eq (id (base g)) (id payload) then Some updated
               else Some g
           | None => None
           end;
         loading := false;
         error := error state |}.

End Goals.

(** ** Transactions as the pages read them

    The properties are those of [TransactionWithCategory] in
    store/slices/transactionsSlice.ts. The pages also read a property
    [type] that the interface does not declare; it is [None] on an object
    that has no such property. *)

Module Transaction.

Record TransactionWithCategory : Type := {
  id : number;
  amount : number;
  description : option string;
  date : string;
  is_income : bool;
  is_recurring : bool;
  recurrence_period : option string;
  category_id : number;
  user_id : number;
  created_at : string;
  updated_at : option string;
  category_name : string;
  type : option string
}.

(** [t.type === tag] *)
Definition has_type (tag : string) (t : TransactionWithCategory) : bool :=
  match type t with
  | Some s => String.eqb s tag
  | None => false
  end.

(** [.reduce((sum, t) => sum + t.amount, 0)] *)
Definition sum_amounts (l : list TransactionWithCategory) : number :=
  fold_left (fun sum t => (sum + amount t)%float) l 0%float.

End Transaction.

(** ** The Transactions page (pages/Transactions.tsx), its totals *)

Module TransactionsPage.
Import Transaction.

Definition totalIncome (filteredTransactions : list TransactionWithCategory)
  : number :=
  sum_amounts (filter (has_type "income") filteredTransactions).

Definition totalExpense (filteredTransactions : list TransactionWithCategory)
  : number :=
  sum_amounts (filter (has_type "expense") filteredTransactions).

Definition netAmount (filteredTransactions : list TransactionWithCategory)
  : number :=
  (totalIncome filteredTransactions - totalExpense filteredTransactions)%float.

End TransactionsPage.

(** ** The Dashboard page (pages/Dashboard.tsx) *)

Module Dashboard.
Import Transaction.

(** The five [useState] cells of the summary. *)
Record Summary : Type := {
  totalIncome : number;
  totalExpense : number;
  netSavings : number;
  totalPortfolioValue : number;
  totalPortfolioProfit : number
}.

Definition initialSummary : Summary := {|
  totalIncome := 0;
  totalExpense := 0;
  netSavings := 0;
  totalPortfolioValue := 0;
  totalPortfolioProfit := 0
|}.

(** The summary effect, run when [transactions] or
    [portfolioWithMarketData] changes. *)
Definition summaryEffect
  (transactions : list TransactionWithCategory)
  (portfolioWithMarketData : list Investments.InvestmentWithMarketData)
  (s : Summary) : Summary :=
  let s1 :=
    if Nat.ltb 0 (List.length transactions) then
      let income := sum_amounts (filter (has_type "income") transactions) in
      let expense := sum_amounts (filter (has_type "expense") transactions) in
      {| totalIncome := income;
         totalExpense := expense;
         netSavings := (income - expense)%float;
         totalPortfolioValue := totalPortfolioValue s;
         totalPortfolioProfit := totalPortfolioProfit s |}
    else s in
  if Nat.ltb 0 (List.length portfolioWithMarketData) then
    let portfolioValue :=
      fold_left (fun sum investment =>
                   (sum + Investments.market_value investment)%float)
                portfolioWithMarketData 0%float in
    let portfolioProfit :=
      fold_left (fun sum investment =>
                   (sum + Investments.profit_loss investment)%float)
                portfolioWithMarketData 0%float in
    {| totalIncome := totalIncome s1;
       totalExpense := totalExpense s1;
       netSavings := netSavings s1;
       totalPortfolioValue := portfolioValue;
       totalPortfolioProfit := portfolioProfit |}
  else s1.

(** The classes of the progress bar. *)
Inductive BarClass : Type := bg_red_600 | bg_yellow_500 | bg_green_500.

(** One card of the Budget Progress panel. [used_label] is the number handed
    to [toFixed(0)] for the label, [bar_width] the number written into the
    bar's [width] percentage. *)
Record BudgetCard : Type := {
  key : number;
  title : string;
  spent_shown : number;
  amount_shown : number;
  bar_class : BarClass;
  bar_width : number;
  used_label : number;
  remaining_shown : number
}.

Inductive BudgetPanel : Type :=
| LoadingBudgets
| NoBudgets
| Cards (cards : list BudgetCard).

Definition budgetCard (budget : Budgets.BudgetWithProgress) : BudgetCard := {|
  key := Budgets.id (Budgets.budget_of (Budgets.base budget));
  title := Budgets.category_name (Budgets.base budget);
  spent_shown := Budgets.spent_amount budget;
  amount_shown := Budgets.amount (Budgets.budget_of (Budgets.base budget));
  bar_class :=
    if gt (Budgets.percentage_used budget) 100 then bg_red_600
    else if gt (Budgets.percentage_used budget) 80 then bg_yellow_500
    else bg_green_500;
  bar_width := Math_min (Budgets.percentage_used budget) 100;
  used_label := Budgets.percentage_used budget;
  remaining_shown := Budgets.remaining_amount budget
|}.

(** The Budget Progress panel: a pure function of the store's values. *)
Definition budgetProgress (budgetsLoading : bool)
  (budgetsWithProgress : list Budgets.BudgetWithProgress) : BudgetPanel :=
  if budgetsLoading then LoadingBudgets
  else if Nat.eqb (List.length budgetsWithProgress) 0 then NoBudgets
  else Cards (map budgetCard (firstn 3 budgetsWithProgress)).

End Dashboard.

(** ** The sums the specification names *)

Module Reference.
Import Transaction.

(** [Σ{amount : type = tag}]: one pass over the list, from 0, adding the
    amount of an entry when its type is [tag] and skipping it otherwise. *)
Definition sum_of_type (tag : string) (l : list TransactionWithCategory)
  : number :=
  fold_left (fun sum t => if has_type tag t then sum + amount t else sum)
            l 0.

End Reference.

(** ** Sample values *)

Module Examples.

Definition holding (i q p : number) : Investments.Investment := {|
  Investments.id := i;
  Investments.ticker := "ACME";
  Investments.quantity := q;
  Investments.avg_buy_price := p;
  Investments.asset_type := "stock";
  Investments.purchase_date := null;
  Investments.notes := absent;
  Investments.user_id := 7;
  Investments.created_at := "2024-01-05T10:00:00";
  Investments.updated_at := null
|}.

(** Four shares of holding 1 bought at 5, last quoted at 8. *)
Definition position : Investments.InvestmentWithMarketData := {|
  Investments.base := holding 1 4 5;
  Investments.current_price := 8;
  Investments.market_value := 32;
  Investments.profit_loss := 12;
  Investments.profit_loss_percentage := 60;
  Investments.last_updated := "2024-02-01T09:30:00";
  Investments.error_flag := None
|}.

Definition other_position : Investments.InvestmentWithMarketData := {|
  Investments.base := holding 2 1 100;
  Investments.current_price := 90;
  Investments.market_value := 90;
  Investments.profit_loss := -10;
  Investments.profit_loss_percentage := -10;
  Investments.last_updated := "2024-02-01T09:30:00";
  Investments.error_flag := Some "stale quote"
|}.

Definition portfolio_state : Investments.InvestmentsState := {|
  Investments.investments := [holding 1 4 5; holding 2 1 100];
  Investments.portfolioWithMarketData := [position; other_position];
  Investments.investment := Some (holding 1 4 5);
  Investments.loading := true;
  Investments.error := None
|}.

(** A budget of [limit] for category 3 in March 2024. *)
Definition budget_of_limit (i limit : number) : Budgets.Budget := {|
  Budgets.id := i;
  Budgets.category_id := 3;
  Budgets.amount := limit;
  Budgets.month := 3;
  Budgets.year := 2024;
  Budgets.user_id := 7;
  Budgets.created_at := "2024-03-01T08:00:00";
  Budgets.updated_at := absent
|}.

Definition progress (i limit spent remaining used : number)
  : Budgets.BudgetWithProgress := {|
  Budgets.base := {| Budgets.budget_of := budget_of_limit i limit;
                     Budgets.category_name := "Groceries" |};
  Budgets.spent_amount := spent;
  Budgets.remaining_amount := remaining;
  Budgets.percentage_used := used
|}.

(** One overspent budget: limit 100, spent 150. *)
Definition budgets_state : Budgets.BudgetsState := {|
  Budgets.budgets := [Budgets.base (progress 1 100 150 (-50) 150)];
  Budgets.budgetsWithProgress := [progress 1 100 150 (-50) 150];
  Budgets.budget := None;
  Budgets.loading := true;
  Budgets.error := None
|}.

Definition four_budgets : list Budgets.BudgetWithProgress :=
  [progress 1 100 150 (-50) 150;
   progress 2 200 50 150 25;
   progress 3 100 90 10 90;
   progress 4 50 100 (-50) 200].

Definition goal_of (i target current : number) : Goals.Goal := {|
  Goals.id := i;
  Goals.name := "Holiday";
  Goals.description := None;
  Goals.target_amount := target;
  Goals.current_amount := current;
  Goals.deadline := null;
  Goals.status := "active";
  Goals.user_id := 7;
  Goals.created_at := "2024-01-01T00:00:00";
  Goals.updated_at := absent
|}.

Definition goals_state : Goals.GoalsState := {|
  Goals.goals := [{| Goals.base := goal_of 1 200 50;
                     Goals.progress_percentage := 25 |}];
  Goals.goal := Some {| Goals.base := goal_of 1 200 50;
                        Goals.progress_percentage := 25 |};
  Goals.loading := true;
  Goals.error := None
|}.

Definition transaction (i amt : number) (ty : option string)
  : Transaction.TransactionWithCategory := {|
  Transaction.id := i;
  Transaction.amount := amt;
  Transaction.description := Some "entry";
  Transaction.date := "2024-03-10";
  Transaction.is_income := false;
  Transaction.is_recurring := false;
  Transaction.recurrence_period := None;
  Transaction.category_id := 3;
  Transaction.user_id := 7;
  Transaction.created_at := "2024-03-10T12:00:00";
  Transaction.updated_at := None;
  Transaction.category_name := "Groceries";
  Transaction.type := ty
|}.

Definition march : list Transaction.TransactionWithCategory :=
  [transaction 1 1000 (Some "income");
   transaction 2 30 (Some "expense");
   transaction 3 20 (Some "expense");
   transaction 4 5 None].

(** The summary after the effect has run on [march]. *)
Definition march_summary : Dashboard.Summary := {|
  Dashboard.totalIncome := 1000;
  Dashboard.totalExpense := 50;
  Dashboard.netSavings := 950;
  Dashboard.totalPortfolioValue := 122;
  Dashboard.totalPortfolioProfit := 2
|}.

End Examples.

(** ** The rest of the Dashboard page: the transaction and goal panels *)

Module DashboardPanels.
Import Transaction.






(** [deadline && ...]: the target date is shown for a non-empty string. *)
Definition deadline_shown (deadline : optional string) : option string :=
  match deadline with
  | present d => if String.eqb d "" then None else Some d
  | _ => None
  end.

(** One card of the Financial Goals panel. [progress_label] is the number
    handed to [toFixed(0)]. *)
Record GoalCard : Type := {
  goal_key : number;
  goal_title : string;
  target_date : option string;
  current_shown : number;
  target_shown : number;
  progress_label : number;
  goal_bar_width : number
}.

Inductive GoalsPanel : Type :=
| LoadingGoals
| NoGoals
| GoalCards (cards : list GoalCard).

Definition goalCard (goal : Goals.GoalWithProgress) : GoalCard := {|
  goal_key := Goals.id (Goals.base goal);
  goal_title := Goals.name (Goals.base goal);
  target_date := deadline_shown (Goals.deadline (Goals.base goal));
  current_shown := Goals.current_amount (Goals.base goal);
  target_shown := Goals.target_amount (Goals.base goal);
  progress_label := Goals.progress_percentage goal;
  goal_bar_width := Math_min (Goals.progress_percentage goal) 100
|}.

Definition financialGoals (goalsLoading : bool)
  (goals : list Goals.GoalWithProgress) : GoalsPanel :=
  if goalsLoading then LoadingGoals
  else if Nat.eqb (List.length goals) 0 then NoGoals
  else GoalCards (map goalCard (firstn 3 goals)).

End DashboardPanels.

(** ** The rest of the Transactions page: search and sorting *)

Module TransactionsControls.
Import Transaction.

(** [s.includes(sub)]: [sub] occurs in [s]. *)
Fixpoint includes (s sub : string) : bool :=
  if String.prefix sub s then true
  else match s with
       | EmptyString => false
       | String _ rest => includes rest sub
       end.

Section Search.

(** [String.prototype.toLowerCase], which depends on the Unicode tables. *)
Variable toLowerCase : string -> string.

(** The callback of [transactions.filter] that builds
    [filteredTransactions]. [transaction.description.toLowerCase()] throws a
    TypeError when the description is missing: the result is [None] then. *)
Definition matches_search (searchTerm : string)
  (transaction : TransactionWithCategory) : option bool :=
  match description transaction with
  | None => None
  | Some d =>
      if includes (toLowerCase d) (toLowerCase searchTerm) then Some true
      else Some (includes (toLowerCase (category_name transaction))
                          (toLowerCase searchTerm))
  end.

(** [Array.prototype.filter] with a callback that may throw: the first
    exception ends the whole call. *)
Fixpoint filter_throwing {A : Type} (f : A -> option bool) (l : list A)
  : option (list A) :=
  match l with
  | [] => Some []
  | x :: xs =>
      match f x with
      | None => None
      | Some keep =>
          match filter_throwing f xs with
          | None => None
          | Some ys => Some (if keep then x :: ys else ys)
          end
      end
  end.

Definition filteredTransactions (searchTerm : string)
  (transactions : list TransactionWithCategory)
  : option (list TransactionWithCategory) :=
  filter_throwing (matches_search searchTerm) transactions.

End Search.

(** The sorting cells of the page. *)
Record Sorting : Type := {
  sortField : string;
  sortDirection : string
}.

Definition handleSort (s : Sorting) (field : string) : Sorting :=
  if String.eqb (sortField s) field then
    {| sortField := sortField s;
       sortDirection :=
         if String.eqb (sortDirection s) "asc" then "desc" else "asc" |}
  else
    {| sortField := field; sortDirection := "asc" |}.

End TransactionsControls.

(** ** The browser's [localStorage] *)

Module LocalStorage.

Definition Storage : Type := string -> option string.

Definition getItem (ls : Storage) (key : string) : option string := ls key.

Definition setItem (ls : Storage) (key value : string) : Storage :=
  fun k => if String.eqb k key then Some value else ls k.

Definition removeItem (ls : Storage) (key : string) : Storage :=
  fun k => if String.eqb k key then None else ls k.

(** [!!v] on a [string | null]: [null] and the empty string are falsy. *)
Definition truthy (v : option string) : bool :=
  match v with
  | Some s => negb (String.eqb s "")
  | None => false
  end.

End LocalStorage.

(** ** The thunks

    A thunk is embedded as a function of the store's [localStorage] and of
    the answer the server gives to its request. *)

Module Thunk.
Import LocalStorage.

(** What [axios] gives back: the data of a successful response, or an error
    whose [error.response?.data?.detail] is missing or a string. *)
Inductive Response (A : Type) : Type :=
| ok (data : A)
| failed (detail : option string).

Arguments ok {A} data.
Arguments failed {A} detail.

(** The action the thunk ends with. *)
Inductive Outcome (A : Type) : Type :=
| fulfilled (payload : A)
| rejected (payload : string).

Arguments fulfilled {A} payload.
Arguments rejected {A} payload.

(** [detail || fallback] *)
Definition or_default (detail : option string) (fallback : string) : string :=
  if truthy detail then
    match detail with
    | Some d => d
    | None => fallback
    end
  else fallback.

(** A run of a thunk: its outcome and the [Authorization] headers of the
    requests it sent. *)
Record Run (A : Type) : Type := {
  outcome : Outcome A;
  sent : list string
}.

Arguments outcome {A} _.
Arguments sent {A} _.

(** The body shared by the thunks of the data slices: read the token, give
    up without it, otherwise send the request with a bearer header and
    return [result] of the data, or reject with the server's detail or the
    thunk's own message. *)
Definition guarded {A B : Type} (fallback : string) (result : A -> B)
  (response : Response A) (ls : Storage) : Run B :=
  let token := getItem ls "token" in
  if negb (truthy token) then
    {| outcome := rejected "No authentication token found"; sent := [] |}
  else
    {| outcome :=
         match response with
         | ok data => fulfilled (result data)
         | failed detail => rejected (or_default detail fallback)
         end;
       sent := [String.append "Bearer "
                  match token with Some t => t | None => "" end] |}.

Definition updateInvestment
  : Response Investments.Investment -> Storage ->
    Run Investments.Investment :=
  guarded "Failed to update investment." (fun data => data).


End Thunk.

(** ** The query of [getTransactions]
    (store/slices/transactionsSlice.ts) *)

Module Query.

(** The values a parameter object of the pages holds. *)
Inductive jsvalue : Type :=
| js_undefined
| js_string (s : string)
| js_number (n : number)
| js_boolean (b : bool).

(** [if (v)] *)
Definition truthy (v : jsvalue) : bool :=
  match v with
  | js_undefined => false
  | js_string s => negb (String.eqb s "")
  | js_number n => negb (strict_eq n 0 || isNaN n)
  | js_boolean b => b
  end.

(** An object literal: its properties in the order written, with distinct
    names. *)
Definition object : Type := list (string * jsvalue).

(** [o.key], [undefined] for a property the object does not have. *)
Fixpoint get (o : object) (key : string) : jsvalue :=
  match o with
  | [] => js_undefined
  | (k, v) :: rest => if String.eqb k key then v else get rest key
  end.

(** [v || undefined] on a string. *)
Definition or_undefined (s : string) : jsvalue :=
  if String.eqb s "" then js_undefined else js_string s.

(** The entries appended to the [URLSearchParams] of [getTransactions], in
    order; an entry holds the value whose string form is sent. *)
Definition getTransactions_query (params : object) : list (string * jsvalue) :=
  let startDate := get params "startDate" in
  let endDate := get params "endDate" in
  let categoryId := get params "categoryId" in
  let isIncome := get params "isIncome" in
  let skip := get params "skip" in
  let limit := get params "limit" in
  (if truthy startDate then [("start_date", startDate)] else []) ++
  (if truthy endDate then [("end_date", endDate)] else []) ++
  (if truthy categoryId then [("category_id", categoryId)] else []) ++
  (match isIncome with
   | js_undefined => []
   | _ => [("is_income", isIncome)]
   end) ++
  (if truthy skip then [("skip", skip)] else []) ++
  (if truthy limit then [("limit", limit)] else []).

(** The filter cells of the Transactions page. *)
Record Filters : Type := {
  transactionType : string;
  selectedCategory : string;
  startDate : string;
  endDate : string;
  minAmount : string;
  maxAmount : string;
  sortField : string;
  sortDirection : string;
  itemsPerPage : number;
  currentPage : number
}.

Section Pages.

(** [parseFloat], which reads a number off a string. *)
Variable parseFloat : string -> number.

(** The object the Transactions page hands to [getTransactions]. *)
Definition transactions_page_params (f : Filters) : object :=
  [("type", if String.eqb (transactionType f) "all" then js_undefined
            else js_string (transactionType f));
   ("category_id", if String.eqb (selectedCategory f) "all" then js_undefined
                   else js_string (selectedCategory f));
   ("start_date", or_undefined (startDate f));
   ("end_date", or_undefined (endDate f));
   ("min_amount", if String.eqb (minAmount f) "" then js_undefined
                  else js_number (parseFloat (minAmount f)));
   ("max_amount", if String.eqb (maxAmount f) "" then js_undefined
                  else js_number (parseFloat (maxAmount f)));
   ("sort_by", js_string (sortField f));
   ("sort_direction", js_string (sortDirection f));
   ("limit", js_number (itemsPerPage f));
   ("offset", js_number ((currentPage f - 1) * itemsPerPage f))].

End Pages.

(** The object the Dashboard hands to [getTransactions]. *)
Definition dashboard_params (currentMonth currentYear : number) : object :=
  [("month", js_number currentMonth);
   ("year", js_number currentYear);
   ("limit", js_number 5);
   ("offset", js_number 0)].

End Query.

(** ** The auth slice (store/slices/authSlice.ts)

    Its reducers also write to [localStorage], so a reducer takes and
    returns the storage with the state. *)

Module Auth.
Import LocalStorage Thunk.

Record User : Type := {
  id : number;
  email : string;
  first_name : option string;
  last_name : option string;
  currency : string;
  timezone : string;
  role : string
}.

Record AuthState : Type := {
  user : option User;
  token : option string;
  isAuthenticated : bool;
  loading : bool;
  error : option string
}.

(** The initial state reads the token the browser kept. *)
Definition initialState (ls : Storage) : AuthState := {|
  user := None;
  token := getItem ls "token";
  isAuthenticated := truthy (getItem ls "token");
  loading := false;
  error := None
|}.

Inductive Action : Type :=
| logout
| clearError
| login_pending
| login_fulfilled (payload_token : string)
| login_rejected (payload : string)
| register_pending
| register_fulfilled
| register_rejected (payload : string)
| getUserProfile_pending
| getUserProfile_fulfilled (payload : User)
| getUserProfile_rejected (payload : string)
| updateProfile_pending
| updateProfile_fulfilled (payload : User)
| updateProfile_rejected (payload : string).

Definition pending (state : AuthState) : AuthState := {|
  user := user state;
  token := token state;
  isAuthenticated := isAuthenticated state;
  loading := true;
  error := None
|}.

Definition reducer (state : AuthState) (ls : Storage) (action : Action)
  : AuthState * Storage :=
  match action with
  | logout =>
      ({| user := None;
          token := None;
          isAuthenticated := false;
          loading := false;
          error := None |},
       removeItem (removeItem ls "token") "refreshToken")
  | clearError =>
      ({| user := user state;
          token := token state;
          isAuthenticated := isAuthenticated state;
          loading := loading state;
          error := None |}, ls)
  | login_pending | register_pending
  | getUserProfile_pending | updateProfile_pending =>
      (pending state, ls)
  | login_fulfilled payload_token =>
      ({| user := user state;
          token := Some payload_token;
          isAuthenticated := true;
          loading := false;
          error := None |}, ls)
  | login_rejected payload =>
      ({| user := user state;
          token := token state;
          isAuthenticated := false;
          loading := false;
          error := Some payload |}, ls)
  | register_fulfilled =>
      ({| user := user state;
          token := token state;
          isAuthenticated := isAuthenticated state;
          loading := false;
          error := None |}, ls)
  | register_rejected payload | updateProfile_rejected payload =>
      ({| user := user state;
          token := token state;
          isAuthenticated := isAuthenticated state;
          loading := false;
          error := Some payload |}, ls)
  | getUserProfile_fulfilled payload | updateProfile_fulfilled payload =>
      ({| user := Some payload;
          token := token state;
          isAuthenticated := isAuthenticated state;
          loading := false;
          error := None |}, ls)
  | getUserProfile_rejected payload =>
      if String.eqb payload "Invalid authentication credentials" then
        ({| user := user state;
            token := None;
            isAuthenticated := false;
            loading := false;
            error := Some payload |},
         removeItem (removeItem ls "token") "refreshToken")
      else
        ({| user := user state;
            token := token state;
            isAuthenticated := isAuthenticated state;
            loading := false;
            error := Some payload |}, ls)
  end.

(** The data of a successful login. *)
Record Tokens : Type := {
  access_token : string;
  refresh_token : string
}.

(** The [login] thunk: no token is needed; a success stores both tokens
    before the action is returned. *)
Definition login (response : Response Tokens) (ls : Storage)
  : Outcome string * Storage :=
  match response with
  | ok data =>
      (fulfilled (access_token data),
       setItem (setItem ls "token" (access_token data))
               "refreshToken" (refresh_token data))
  | failed detail =>
      (rejected
         (or_default detail
            "Failed to login. Please check your credentials."), ls)
  end.

(** The [register] thunk; the reducer ignores the data it returns. *)
Definition register (response : Response User) : Outcome User :=
  match response with
  | ok data => fulfilled data
  | failed detail =>
      rejected (or_default detail "Registration failed. Please try again.")
  end.

Definition getUserProfile : Response User -> Storage -> Run User :=
  guarded "Failed to fetch user profile." (fun data => data).

Definition updateProfile : Response User -> Storage -> Run User :=
  guarded "Failed to update profile." (fun data => data).

(** What can be dispatched to the slice: its two plain actions and its four
    thunks, each with the answer of the server. *)
Inductive Event : Type :=
| Logout
| ClearError
| Login (response : Response Tokens)
| Register (response : Response User)
| GetUserProfile (response : Response User)
| UpdateProfile (response : Response User).

Definition dispatch (store : AuthState * Storage) (event : Event)
  : AuthState * Storage :=
  let (state, ls) := store in
  match event with
  | Logout => reducer state ls logout
  | ClearError => reducer state ls clearError
  | Login response =>
      let (s1, ls1) := reducer state ls login_pending in
      let (result, ls2) := login response ls1 in
      match result with
      | fulfilled t => reducer s1 ls2 (login_fulfilled t)
      | rejected payload => reducer s1 ls2 (login_rejected payload)
      end
  | Register response =>
      let (s1, ls1) := reducer state ls register_pending in
      match register response with
      | fulfilled _ => reducer s1 ls1 register_fulfilled
      | rejected payload => reducer s1 ls1 (register_rejected payload)
      end
  | GetUserProfile response =>
      let (s1, ls1) := reducer state ls getUserProfile_pending in
      match outcome (getUserProfile response ls1) with
      | fulfilled u => reducer s1 ls1 (getUserProfile_fulfilled u)
      | rejected payload => reducer s1 ls1 (getUserProfile_rejected payload)
      end
  | UpdateProfile response =>
      let (s1, ls1) := reducer state ls updateProfile_pending in
      match outcome (updateProfile response ls1) with
      | fulfilled u => reducer s1 ls1 (updateProfile_fulfilled u)
      | rejected payload => reducer s1 ls1 (updateProfile_rejected payload)
      end
  end.

(** The store after a sequence of events, from a browser whose storage is
    [ls]. *)
Definition run (ls : Storage) (events : list Event) : AuthState * Storage :=
  fold_left dispatch events (initialState ls, ls).

(** The two facts the slice keeps true: the token of the state is the one
    in [localStorage], and an authenticated state has a token. *)
Definition consistent (store : AuthState * Storage) : Prop :=
  token (fst store) = getItem (snd store) "token" /\
  (isAuthenticated (fst store) = true -> token (fst store) <> None).

(** What a route element renders to. *)
Inductive Rendered (E : Type) : Type :=
| Navigate (to : string)
| Element (children : E).

Arguments Navigate {E} to.
Arguments Element {E} children.

(** [ProtectedRoute] of App.tsx. *)
Definition ProtectedRoute {E : Type} (state : AuthState) (children : E)
  : Rendered E :=
  if negb (isAuthenticated state) then Navigate "/login"
  else Element children.

End Auth.

(** ** The transactions slice (store/slices/transactionsSlice.ts) *)

Module TransactionsSlice.
Import Transaction.

(** The interface [Transaction]: a transaction as the server returns it,
    without the category name. *)
Record Transaction : Type := {
  t_id : number;
  t_amount : number;
  t_description : option string;
  t_date : string;
  t_is_income : bool;
  t_is_recurring : bool;
  t_recurrence_period : option string;
  t_category_id : number;
  t_user_id : number;
  t_created_at : string;
  t_updated_at : option string;
  t_type : option string
}.

Record MonthlySummary : Type := {
  month : number;
  income : number;
  expenses : number;
  savings : number
}.

Record TransactionsState : Type := {
  transactions : list TransactionWithCategory;
  transaction : option TransactionWithCategory;
  monthlySummary : list MonthlySummary;
  loading : bool;
  error : option string
}.

Definition initialState : TransactionsState := {|
  transactions := [];
  transaction := None;
  monthlySummary := [];
  loading := false;
  error := None
|}.

Inductive Action : Type :=
| clearTransactionError
| clearCurrentTransaction
| getTransactions_pending
| getTransactions_fulfilled (payload : list TransactionWithCategory)
| getTransactions_rejected (payload : string)
| getTransaction_pending
| getTransaction_fulfilled (payload : TransactionWithCategory)
| getTransaction_rejected (payload : string)
| createTransaction_pending
| createTransaction_fulfilled (payload : Transaction)
| createTransaction_rejected (payload : string)
| updateTransaction_pending
| updateTransaction_fulfilled (payload : Transaction)
| updateTransaction_rejected (payload : string)
| deleteTransaction_pending
| deleteTransaction_fulfilled (payload : number)
| deleteTransaction_rejected (payload : string)
| getMonthlySummary_pending
| getMonthlySummary_fulfilled (payload : list MonthlySummary)
| getMonthlySummary_rejected (payload : string).

(** [{ ...payload, category_name: name }] *)
Definition with_category (payload : Transaction) (name : string)
  : TransactionWithCategory := {|
  id := t_id payload;
  amount := t_amount payload;
  description := t_description payload;
  date := t_date payload;
  is_income := t_is_income payload;
  is_recurring := t_is_recurring payload;
  recurrence_period := t_recurrence_period payload;
  category_id := t_category_id payload;
  user_id := t_user_id payload;
  created_at := t_created_at payload;
  updated_at := t_updated_at payload;
  category_name := name;
  type := t_type payload
|}.

Definition set_flags (state : TransactionsState) (l : bool)
  (e : option string) : TransactionsState := {|
  transactions := transactions state;
  transaction := transaction state;
  monthlySummary := monthlySummary state;
  loading := l;
  error := e
|}.

Definition reducer (state : TransactionsState) (action : Action)
  : TransactionsState :=
  match action with
  | clearTransactionError => set_flags state (loading state) None
  | clearCurrentTransaction =>
      {| transactions := transactions state;
         transaction := None;
         monthlySummary := monthlySummary state;
         loading := loading state;
         error := error state |}
  | getTransactions_pending | getTransaction_pending
  | createTransaction_pending | updateTransaction_pending
  | deleteTransaction_pending | getMonthlySummary_pending =>
      set_flags state true None
  | getTransactions_rejected payload | getTransaction_rejected payload
  | createTransaction_rejected payload | updateTransaction_rejected payload
  | deleteTransaction_rejected payload | getMonthlySummary_rejected payload =>
      set_flags state false (Some payload)
  | getTransactions_fulfilled payload =>
      {| transactions := payload;
         transaction := transaction state;
         monthlySummary := monthlySummary state;
         loading := false;
         error := error state |}
  | getTransaction_fulfilled payload =>
      {| transactions := transactions state;
         transaction := Some payload;
         monthlySummary := monthlySummary state;
         loading := false;
         error := error state |}
  | createTransaction_fulfilled _ => set_flags state false (error state)
  | updateTransaction_fulfilled payload =>
      {| transactions :=
           map (fun transaction =>
                  if strict_eq (id transaction) (t_id payload)
                  then with_category payload (category_name transaction)
                  else transaction)
               (transactions state);
         transaction :=
           match transaction state with
           | Some t =>
               if strict_eq (id t) (t_id payload)
               then Some (with_category payload (category_name t))
               else Some t
           | None => None
           end;
         monthlySummary := monthlySummary state;
         loading := false;
         error := error state |}
  | deleteTransaction_fulfilled payload =>
      {| transactions :=
           filter (fun transaction =>
                     negb (strict_eq (id transaction) payload))
                  (transactions state);
         transaction :=
           match transaction state with
           | Some t => if strict_eq (id t) payload then None else Some t
           | None => None
           end;
         monthlySummary := monthlySummary state;
         loading := false;
         error := error state |}
  | getMonthlySummary_fulfilled payload =>
      {| transactions := transactions state;
         transaction := transaction state;
         monthlySummary := payload;
         loading := false;
         error := error state |}
  end.

Definition rejection (action : Action) : option string :=
  match action with
  | getTransactions_rejected payload | getTransaction_rejected payload
  | createTransaction_rejected payload | updateTransaction_rejected payload
  | deleteTransaction_rejected payload | getMonthlySummary_rejected payload =>
      Some payload
  | _ => None
  end.

End TransactionsSlice.

(** ** The goals slice as a whole *)

Module GoalsSlice.
Import Goals.

Inductive Action : Type :=
| clearGoalError
| clearCurrentGoal
| getGoals_pending
| getGoals_fulfilled (payload : list GoalWithProgress)
| getGoals_rejected (payload : string)
| getGoal_pending
| getGoal_fulfilled (payload : GoalWithProgress)
| getGoal_rejected (payload : string)
| createGoal_pending
| createGoal_fulfilled_action (payload : Goal)
| createGoal_rejected (payload : string)
| updateGoal_pending
| updateGoal_fulfilled_action (payload : Goal)
| updateGoal_rejected (payload : string)
| deleteGoal_pending
| deleteGoal_fulfilled (payload : number)
| deleteGoal_rejected (payload : string).

Definition reducer (state : GoalsState) (action : Action)
  : traced GoalsState :=
  match action with
  | clearGoalError =>
      ret {| goals := goals state;
             goal := goal state;
             loading := loading state;
             error := None |}
  | clearCurrentGoal =>
      ret {| goals := goals state;
             goal := None;
             loading := loading state;
             error := error state |}
  | getGoals_pending | getGoal_pending | createGoal_pending
  | updateGoal_pending | deleteGoal_pending =>
      ret {| goals := goals state;
             goal := goal state;
             loading := true;
             error := None |}
  | getGoals_rejected payload | getGoal_rejected payload
  | createGoal_rejected payload | updateGoal_rejected payload
  | deleteGoal_rejected payload =>
      ret {| goals := goals state;
             goal := goal state;
             loading := false;
             error := Some payload |}
  | getGoals_fulfilled payload =>
      ret {| goals := payload;
             goal := goal state;
             loading := false;
             error := error state |}
  | getGoal_fulfilled payload =>
      ret {| goals := goals state;
             goal := Some payload;
             loading := false;
             error := error state |}
  | createGoal_fulfilled_action payload => createGoal_fulfilled state payload
  | updateGoal_fulfilled_action payload => updateGoal_fulfilled state payload
  | deleteGoal_fulfilled payload =>
      ret {| goals :=
               filter (fun goal => negb (strict_eq (id (base goal)) payload))
                      (goals state);
             goal :=
               match goal state with
               | Some g =>
                   if strict_eq (id (base g)) payload then None else Some g
               | None => None
               end;
             loading := false;
             error := error state |}
  end.

Definition rejection (action : Action) : option string :=
  match action with
  | getGoals_rejected payload | getGoal_rejected payload
  | createGoal_rejected payload | updateGoal_rejected payload
  | deleteGoal_rejected payload => Some payload
  | _ => None
  end.

End GoalsSlice.

(** ** More sample values *)

Module Samples.

(** The store after [march] was fetched, with the second entry open. *)
Definition march_state : TransactionsSlice.TransactionsState := {|
  TransactionsSlice.transactions := Examples.march;
  TransactionsSlice.transaction :=
    Some (Examples.transaction 2 30 (Some "expense"));
  TransactionsSlice.monthlySummary := [];
  TransactionsSlice.loading := true;
  TransactionsSlice.error := None
|}.

(** Transaction 2 moved to category 9 and raised to 45. *)
Definition edited : TransactionsSlice.Transaction := {|
  TransactionsSlice.t_id := 2;
  TransactionsSlice.t_amount := 45;
  TransactionsSlice.t_description := Some "entry";
  TransactionsSlice.t_date := "2024-03-10";
  TransactionsSlice.t_is_income := false;
  TransactionsSlice.t_is_recurring := false;
  TransactionsSlice.t_recurrence_period := None;
  TransactionsSlice.t_category_id := 9;
  TransactionsSlice.t_user_id := 7;
  TransactionsSlice.t_created_at := "2024-03-10T12:00:00";
  TransactionsSlice.t_updated_at := Some "2024-03-11T08:00:00";
  TransactionsSlice.t_type := Some "expense"
|}.

End Samples.

(** * Properties *)

(** ** Facts on binary64 comparison *)

Section Comparison.

Lemma SFcompare_antisym (x y : spec_float) :
  SFcompare y x = option_map CompOpp (SFcompare x y).
Proof.
  destruct x as [sx|sx| |sx mx ex], y as [sy|sy| |sy my ey]; simpl;
    try reflexivity;
    try (destruct sx; reflexivity);
    try (destruct sy; reflexivity);
    try (destruct sx, sy; reflexivity).
  destruct sx, sy; simpl; try reflexivity;
    rewrite (Z.compare_antisym ex ey);
    destruct (ex ?= ey)%Z; simpl; try reflexivity;
    rewrite (Pos.compare_cont_antisym mx my Eq); simpl;
    destruct (Pos.compare_cont Eq mx my); reflexivity.
Qed.

Lemma SFcompare_Eq_refl (x y : spec_float) :
  SFcompare x y = Some Eq -> SFcompare y y = Some Eq.
Proof.
  destruct x as [sx|sx| |sx mx ex], y as [sy|sy| |sy my ey]; simpl;
    try discriminate; try reflexivity;
    try (destruct sx; discriminate);
    try (destruct sy; discriminate);
    try (destruct sy; reflexivity).
  intros _. destruct sy; rewrite Z.compare_refl, Pos.compare_cont_refl;
    reflexivity.
Qed.

(** A number that compares [===] to something is not NaN, hence [===]
    to itself. *)
Lemma strict_eq_match_refl (x y : number) :
  strict_eq x y = true -> strict_eq y y = true.
Proof.
  unfold strict_eq. rewrite !FloatAxioms.eqb_spec. unfold SFeqb.
  destruct (SFcompare (Prim2SF x) (Prim2SF y)) as [[| |]|] eqn:E;
    try discriminate.
  intros _. now rewrite (SFcompare_Eq_refl _ _ E).
Qed.

Lemma le_not_gt (a b : number) : le a b = true -> gt a b = false.
Proof.
  unfold le, gt. rewrite FloatAxioms.leb_spec, FloatAxioms.ltb_spec.
  unfold SFleb, SFltb. rewrite (SFcompare_antisym (Prim2SF a) (Prim2SF b)).
  destruct (SFcompare (Prim2SF a) (Prim2SF b)) as [[| |]|];
    simpl; congruence.
Qed.

Lemma gt_not_lt (a b : number) : gt a b = true -> PrimFloat.ltb a b = false.
Proof.
  unfold gt. rewrite !FloatAxioms.ltb_spec. unfold SFltb.
  rewrite (SFcompare_antisym (Prim2SF b) (Prim2SF a)).
  destruct (SFcompare (Prim2SF b) (Prim2SF a)) as [[| |]|];
    simpl; congruence.
Qed.

Lemma SFcompare_Some_refl (x y : spec_float) (c : comparison) :
  SFcompare x y = Some c -> SFcompare x x = Some Eq /\ SFcompare y y = Some Eq.
Proof.
  destruct x as [sx|sx| |sx mx ex], y as [sy|sy| |sy my ey]; simpl;
    try discriminate; intros _; split;
    repeat match goal with
           | |- context [if ?s then _ else _] => destruct s
           | |- context [match ?s with true => _ | false => _ end] => destruct s
           end;
    rewrite ?Z.compare_refl, ?Pos.compare_cont_refl; reflexivity.
Qed.

Lemma gt_not_NaN (a b : number) :
  gt a b = true -> isNaN a = false /\ isNaN b = false.
Proof.
  unfold gt, isNaN, PrimFloat.is_nan.
  rewrite FloatAxioms.ltb_spec, !FloatAxioms.eqb_spec. unfold SFltb, SFeqb.
  destruct (SFcompare (Prim2SF b) (Prim2SF a)) as [c|] eqn:E;
    try discriminate.
  destruct (SFcompare_Some_refl _ _ _ E) as [Hb Ha].
  rewrite Ha, Hb. intros _. split; reflexivity.
Qed.

(** Above a cap, [Math.min] returns the cap. *)
Lemma Math_min_capped (a cap : number) :
  gt a cap = true -> Math_min a cap = cap.
Proof.
  intros H. unfold Math_min.
  destruct (gt_not_NaN _ _ H) as [-> ->]. simpl.
  rewrite (gt_not_lt _ _ H). unfold gt in H. now rewrite H.
Qed.

(** Strictly below a cap, [Math.min] returns its first argument. *)
Lemma Math_min_below (a cap : number) :
  PrimFloat.ltb a cap = true -> Math_min a cap = a.
Proof.
  intros H. unfold Math_min.
  destruct (gt_not_NaN cap a H) as [-> ->]. simpl. now rewrite H.
Qed.

End Comparison.

(** ** Facts on traced computations *)

Section TracedFacts.

Lemma value_bind {A C : Type} (m : traced A) (k : A -> traced C) :
  value (bind m k) = value (k (value m)).
Proof.
  unfold value, bind. destruct m as [a d1]. simpl.
  destruct (k a) as [b d2]. reflexivity.
Qed.

Lemma divisors_bind {A C : Type} (m : traced A) (k : A -> traced C) :
  divisors (bind m k) = divisors m ++ divisors (k (value m)).
Proof.
  unfold value, divisors, bind. destruct m as [a d1]. simpl.
  destruct (k a) as [b d2]. reflexivity.
Qed.

Lemma value_array_map {A B : Type} (f : A -> traced B) (l : list A) :
  value (array_map f l) = map (fun x => value (f x)) l.
Proof.
  induction l as [|x xs IH]; cbn [array_map map]; [reflexivity|].
  rewrite !value_bind. cbn [value ret fst]. now rewrite <- IH.
Qed.

Lemma divisors_array_map {A B : Type} (f : A -> traced B) (l : list A) :
  divisors (array_map f l) = flat_map (fun x => divisors (f x)) l.
Proof.
  induction l as [|x xs IH]; cbn [array_map flat_map]; [reflexivity|].
  rewrite !divisors_bind. cbn [divisors ret snd].
  now rewrite app_nil_r, <- IH.
Qed.

End TracedFacts.

(** ** The investments slice: editing a holding *)

Module InvestmentsProofs.
Import Investments.

Lemma portfolio_after_update (state : InvestmentsState) (payload : Investment) :
  portfolioWithMarketData
    (value (reducer state (updateInvestment_fulfilled payload)))
  = map (fun e => value (recalculate payload e))
        (portfolioWithMarketData state).
Proof.
  cbn [reducer]. rewrite value_bind. cbn [value ret fst portfolioWithMarketData].
  apply value_array_map.
Qed.

Lemma entry_after_update (state : InvestmentsState) (payload : Investment)
  (i : nat) (e : InvestmentWithMarketData) :
  nth_error (portfolioWithMarketData state) i = Some e ->
  nth_error
    (portfolioWithMarketData
       (value (reducer state (updateInvestment_fulfilled payload)))) i
  = Some (value (recalculate payload e)).
Proof.
  intros Hi. rewrite portfolio_after_update.
  now rewrite nth_error_map, Hi.
Qed.

(** C2. When the payload of [updateInvestment.fulfilled] names an entry of
    [portfolioWithMarketData], the entry that replaces it at the same
    position keeps the cached [current_price] and [last_updated], and its
    market value is recomputed from that cached price; the portfolio keeps
    all its positions. *)
Theorem update_keeps_cached_price
  (state : InvestmentsState) (payload : Investment)
  (i : nat) (e : InvestmentWithMarketData) :
  nth_error (portfolioWithMarketData state) i = Some e ->
  strict_eq (id (base e)) (id payload) = true ->
  let state' := value (reducer state (updateInvestment_fulfilled payload)) in
  List.length (portfolioWithMarketData state')
  = List.length (portfolioWithMarketData state) /\
  exists e',
    nth_error (portfolioWithMarketData state') i = Some e' /\
    current_price e' = current_price e /\
    last_updated e' = last_updated e /\
    market_value e' = quantity payload * current_price e.
Proof.
  intros Hi Hid state'. split.
  - unfold state'. rewrite portfolio_after_update. apply length_map.
  - exists (value (recalculate payload e)). split.
    + now apply entry_after_update.
    + unfold recalculate. rewrite Hid. repeat split.
Qed.

Lemma update_keeps_cached_price_witness :
  let state' :=
    value (reducer Examples.portfolio_state
             (updateInvestment_fulfilled (Examples.holding 1 10 5))) in
  List.length (portfolioWithMarketData state') = 2%nat /\
  exists e',
    nth_error (portfolioWithMarketData state') 0 = Some e' /\
    current_price e' = 8 /\
    last_updated e' = "2024-02-01T09:30:00" /\
    market_value e' = 80.
Proof.
  exact (update_keeps_cached_price Examples.portfolio_state
           (Examples.holding 1 10 5) 0 Examples.position
           eq_refl eq_refl).
Defined.

(** C3. For a payload [p] that names a cached entry whose cached price is
    [c], the entry after [updateInvestment.fulfilled] has
    [market_value = p.quantity * c] and
    [profit_loss = market_value - p.quantity * p.avg_buy_price]. *)
Theorem update_market_value_and_profit
  (state : InvestmentsState) (p : Investment)
  (i : nat) (e : InvestmentWithMarketData) (c : number) :
  nth_error (portfolioWithMarketData state) i = Some e ->
  strict_eq (id (base e)) (id p) = true ->
  current_price e = c ->
  exists e',
    nth_error
      (portfolioWithMarketData
         (value (reducer state (updateInvestment_fulfilled p)))) i = Some e' /\
    market_value e' = quantity p * c /\
    profit_loss e' = market_value e' - quantity p * avg_buy_price p.
Proof.
  intros Hi Hid Hc. exists (value (recalculate p e)). split.
  - now apply entry_after_update.
  - unfold recalculate. rewrite Hid, <- Hc. split; reflexivity.
Qed.

Lemma update_market_value_and_profit_witness :
  exists e',
    nth_error
      (portfolioWithMarketData
         (value (reducer Examples.portfolio_state
                   (updateInvestment_fulfilled (Examples.holding 1 10 5)))))
      0 = Some e' /\
    market_value e' = 10 * 8 /\
    profit_loss e' = market_value e' - 10 * 5.
Proof.
  exact (update_market_value_and_profit Examples.portfolio_state
           (Examples.holding 1 10 5) 0 Examples.position 8
           eq_refl eq_refl eq_refl).
Defined.

(** The worked example of the specification: ten shares bought at 5 and
    quoted at 8 give a profit of 30, which is 60 per cent. *)
Example update_ten_shares :
  map (fun e => (market_value e, profit_loss e, profit_loss_percentage e))
      (portfolioWithMarketData
         (value (reducer Examples.portfolio_state
                   (updateInvestment_fulfilled (Examples.holding 1 10 5)))))
  = [(80, 30, 60); (90, -10, -10)].
Proof. reflexivity. Qed.

(** Recalculating an entry that was just recalculated changes nothing: the
    rebuilt entry carries the payload's id and the price it was built from. *)
Lemma recalculate_twice (payload : Investment) (e : InvestmentWithMarketData) :
  value (recalculate payload (value (recalculate payload e)))
  = value (recalculate payload e).
Proof.
  destruct (strict_eq (id (base e)) (id payload)) eqn:Hid.
  - pose proof (strict_eq_match_refl _ _ Hid) as Hp.
    unfold recalculate at 2. rewrite Hid. cbn [value bind divide ret fst].
    unfold recalculate. cbn [base current_price last_updated].
    rewrite Hp, Hid. reflexivity.
  - unfold recalculate at 2. rewrite Hid. cbn [value ret fst].
    unfold recalculate. rewrite Hid. reflexivity.
Qed.

Lemma replace_twice (payload : Investment) (x : Investment) :
  let f := fun investment : Investment =>
             if strict_eq (id investment) (id payload) then payload
             else investment in
  f (f x) = f x.
Proof.
  cbv beta zeta. destruct (strict_eq (id x) (id payload)) eqn:Hid.
  - now rewrite (strict_eq_match_refl _ _ Hid).
  - now rewrite Hid.
Qed.

(** C8. Applying the [updateInvestment.fulfilled] reducer a second time with
    the same action gives the state the first application gave, and the
    result depends on the state and the action alone. *)
Theorem update_idempotent (state : InvestmentsState) (payload : Investment) :
  let step := fun s => value (reducer s (updateInvestment_fulfilled payload)) in
  step (step state) = step state /\
  forall state2 payload2,
    state2 = state -> payload2 = payload ->
    reducer state2 (updateInvestment_fulfilled payload2)
    = reducer state (updateInvestment_fulfilled payload).
Proof.
  cbv zeta. split; [|intros state2 payload2 -> ->; reflexivity].
  set (s1 := value (reducer state (updateInvestment_fulfilled payload))).
  assert (Hp1 : portfolioWithMarketData s1
                = map (fun e => value (recalculate payload e))
                      (portfolioWithMarketData state))
    by apply portfolio_after_update.
  assert (Hi1 : investments s1
                = map (fun investment =>
                         if strict_eq (id investment) (id payload)
                         then payload else investment)
                      (investments state)).
  { unfold s1. cbn [reducer]. rewrite value_bind. reflexivity. }
  assert (Hc1 : investment s1
                = if current_has_id state (id payload) then Some payload
                  else investment state).
  { unfold s1. cbn [reducer]. rewrite value_bind. reflexivity. }
  assert (He1 : error s1 = error state).
  { unfold s1. cbn [reducer]. rewrite value_bind. reflexivity. }
  assert (Hl1 : loading s1 = false).
  { unfold s1. cbn [reducer]. rewrite value_bind. reflexivity. }
  assert (Hs1 : s1 = {| investments := investments s1;
                        portfolioWithMarketData := portfolioWithMarketData s1;
                        investment := investment s1;
                        loading := loading s1;
                        error := error s1 |}) by (destruct s1; reflexivity).
  rewrite Hs1 at 2.
  cbn [reducer]. rewrite value_bind, value_array_map.
  cbn [value ret fst]. f_equal.
  - rewrite Hi1, map_map. apply map_ext. intros x. apply replace_twice.
  - rewrite Hp1, map_map. apply map_ext. intros e. apply recalculate_twice.
  - rewrite Hc1. unfold current_has_id. rewrite Hc1.
    unfold current_has_id.
    destruct (investment state) as [inv|]; [|reflexivity].
    destruct (strict_eq (id inv) (id payload)) eqn:Hid.
    + now rewrite (strict_eq_match_refl _ _ Hid).
    + now rewrite Hid.
  - now rewrite Hl1.
Qed.

(** C1. An edit that sets the quantity of a cached holding to zero makes the
    reducer divide by a zero cost basis, and the stored percentage is NaN. *)
Theorem update_zero_quantity_divides_by_zero :
  let result := reducer Examples.portfolio_state
                  (updateInvestment_fulfilled (Examples.holding 1 0 5)) in
  divisors result = [0] /\
  option_map (fun e => isNaN (profit_loss_percentage e))
    (nth_error (portfolioWithMarketData (value result)) 0) = Some true.
Proof. split; reflexivity. Qed.

(** The same edit with a zero average buy price: the profit is positive, the
    cost basis zero, and the stored percentage is infinite. *)
Example update_zero_price_is_infinite :
  let result := reducer Examples.portfolio_state
                  (updateInvestment_fulfilled (Examples.holding 1 4 0)) in
  divisors result = [0] /\
  option_map profit_loss_percentage
    (nth_error (portfolioWithMarketData (value result)) 0)
  = Some PrimFloat.infinity.
Proof. split; reflexivity. Qed.

(** Every matching entry contributes its cost basis as a divisor, whatever
    its sign. *)
Lemma update_divisors (state : InvestmentsState) (payload : Investment) :
  divisors (reducer state (updateInvestment_fulfilled payload))
  = map (fun _ => quantity payload * avg_buy_price payload)
        (filter (fun e => strict_eq (id (base e)) (id payload))
                (portfolioWithMarketData state)).
Proof.
  cbn [reducer]. rewrite divisors_bind. cbn [divisors ret snd].
  rewrite app_nil_r, divisors_array_map.
  induction (portfolioWithMarketData state) as [|e l IH]; [reflexivity|].
  cbn [flat_map filter]. unfold recalculate at 1.
  destruct (strict_eq (id (base e)) (id payload)); cbn; now rewrite IH.
Qed.

Lemma investments_rejected_frame
  (state : InvestmentsState) (action : Action) (payload : string) :
  rejection action = Some payload ->
  reducer state action = ret (rejected state payload).
Proof.
  destruct action; cbn [rejection]; try discriminate;
    intros [= ->]; reflexivity.
Qed.

End InvestmentsProofs.

(** ** The budgets slice *)

Module BudgetsProofs.
Import Budgets.

(** C4. Editing the amount of the overspent budget (limit 100, spent 150,
    remaining -50) to 200 leaves [remaining_amount] and [percentage_used]
    as they were cached: the entry satisfied
    [remaining_amount = amount - spent_amount] before
    [updateBudget.fulfilled] and does not afterwards. *)
Theorem update_budget_leaves_remaining_stale :
  let before := budgetsWithProgress Examples.budgets_state in
  let after :=
    budgetsWithProgress
      (reducer Examples.budgets_state
         (updateBudget_fulfilled (Examples.budget_of_limit 1 200))) in
  Forall remaining_consistent before /\
  map (fun b => (amount (budget_of (base b)), spent_amount b,
                 remaining_amount b, percentage_used b)) after
  = [(200, 150, -50, 150)] /\
  map (fun b => amount (budget_of (base b)) - spent_amount b) after = [50] /\
  map (fun b => PrimFloat.eqb (remaining_amount b)
                  (amount (budget_of (base b)) - spent_amount b)) after
  = [false].
Proof.
  cbv zeta. repeat split.
  constructor; [reflexivity | constructor].
Qed.

(** What the edit does keep: the relation survives
    [updateBudget.fulfilled] on every entry the payload does not name, and
    on a named entry when the payload's amount is the cached one. *)
Lemma update_budget_same_amount
  (state : BudgetsState) (payload : Budget) :
  Forall remaining_consistent (budgetsWithProgress state) ->
  (forall b, In b (budgetsWithProgress state) ->
             strict_eq (id (budget_of (base b))) (id payload) = true ->
             amount payload = amount (budget_of (base b))) ->
  Forall remaining_consistent
    (budgetsWithProgress (reducer state (updateBudget_fulfilled payload))).
Proof.
  intros Hinv Hsame. cbn [reducer budgetsWithProgress].
  rewrite Forall_forall in *. intros b' Hin.
  apply in_map_iff in Hin. destruct Hin as [b [<- Hb]].
  destruct (strict_eq (id (budget_of (base b))) (id payload)) eqn:Hid.
  - unfold remaining_consistent. cbn.
    rewrite (Hsame b Hb Hid). apply (Hinv b Hb).
  - apply (Hinv b Hb).
Qed.

(** The relation survives the deletion of a budget. *)
Lemma delete_budget_invariant (state : BudgetsState) (i : number) :
  Forall remaining_consistent (budgetsWithProgress state) ->
  Forall remaining_consistent
    (budgetsWithProgress (reducer state (deleteBudget_fulfilled i))).
Proof.
  intros Hinv. cbn [reducer budgetsWithProgress].
  rewrite Forall_forall in *. intros b Hin.
  apply filter_In in Hin. now apply Hinv.
Qed.

Lemma budgets_rejected_frame
  (state : BudgetsState) (action : Action) (payload : string) :
  rejection action = Some payload ->
  reducer state action = rejected state payload.
Proof.
  destruct action; cbn [rejection]; try discriminate;
    intros [= ->]; reflexivity.
Qed.

End BudgetsProofs.

(** ** The goals slice: the guarded percentage *)

Module GoalsProofs.
Import Goals.

Lemma progressPercentage_positive (payload : Goal) :
  gt (target_amount payload) 0 = true ->
  progressPercentage payload
  = (current_amount payload / target_amount payload * 100,
     [target_amount payload]).
Proof. intros H. unfold progressPercentage. rewrite H. reflexivity. Qed.

Lemma progressPercentage_not_positive (payload : Goal) :
  gt (target_amount payload) 0 = false ->
  progressPercentage payload = (0, []).
Proof. intros H. unfold progressPercentage. rewrite H. reflexivity. Qed.

Lemma progressPercentage_divisors (payload : Goal) :
  Forall (fun d => gt d 0 = true) (divisors (progressPercentage payload)).
Proof.
  destruct (gt (target_amount payload) 0) eqn:H.
  - rewrite (progressPercentage_positive _ H). cbn [divisors snd].
    constructor; [exact H | constructor].
  - rewrite (progressPercentage_not_positive _ H). constructor.
Qed.

Lemma createGoal_divisors (state : GoalsState) (payload : Goal) :
  divisors (createGoal_fulfilled state payload)
  = divisors (progressPercentage payload).
Proof.
  unfold createGoal_fulfilled. rewrite divisors_bind.
  cbn [divisors ret snd]. apply app_nil_r.
Qed.

Lemma updateGoal_divisors (state : GoalsState) (payload : Goal) :
  divisors (updateGoal_fulfilled state payload)
  = divisors (progressPercentage payload).
Proof.
  unfold updateGoal_fulfilled. rewrite divisors_bind.
  cbn [divisors ret snd]. apply app_nil_r.
Qed.

(** C6. In [createGoal.fulfilled] and [updateGoal.fulfilled] the percentage
    stored with the goal is [(current_amount / target_amount) * 100] when
    [target_amount > 0] and [0] otherwise, in particular for a zero or
    negative target; every division the two reducers perform has a strictly
    positive divisor, and none is performed when the target is not
    positive. *)
Theorem goal_progress_guarded (state : GoalsState) (payload : Goal) :
  let created := createGoal_fulfilled state payload in
  let updated := updateGoal_fulfilled state payload in
  let stored :=
    if gt (target_amount payload) 0
    then current_amount payload / target_amount payload * 100
    else 0 in
  let entry := {| base := payload; progress_percentage := stored |} in
  (le (target_amount payload) 0 = true -> stored = 0) /\
  goals (value created) = goals state ++ [entry] /\
  goals (value updated)
  = map (fun goal =>
           if strict_eq (id (base goal)) (id payload) then entry else goal)
        (goals state) /\
  goal (value updated)
  = match goal state with
    | Some g =>
        if strict_eq (id (base g)) (id payload) then Some entry else Some g
    | None => None
    end /\
  Forall (fun d => gt d 0 = true) (divisors created) /\
  Forall (fun d => gt d 0 = true) (divisors updated) /\
  (gt (target_amount payload) 0 = false ->
   divisors created = [] /\ divisors updated = []).
Proof.
  cbv zeta. split; [|split; [|split; [|split; [|split; [|split]]]]].
  - intros H. now rewrite (le_not_gt _ _ H).
  - unfold createGoal_fulfilled. rewrite value_bind.
    unfold progressPercentage.
    destruct (gt (target_amount payload) 0); reflexivity.
  - unfold updateGoal_fulfilled. rewrite value_bind.
    unfold progressPercentage.
    destruct (gt (target_amount payload) 0); reflexivity.
  - unfold updateGoal_fulfilled. rewrite value_bind.
    unfold progressPercentage.
    destruct (gt (target_amount payload) 0); reflexivity.
  - rewrite createGoal_divisors. apply progressPercentage_divisors.
  - rewrite updateGoal_divisors. apply progressPercentage_divisors.
  - intros H. rewrite createGoal_divisors, updateGoal_divisors.
    now rewrite (progressPercentage_not_positive _ H).
Qed.

(** A goal with target 200 and 50 saved is at 25 per cent; an edit that sets
    the target to zero stores 0 and divides nothing. *)
Example goal_quarter_then_zero_target :
  map progress_percentage
    (goals (value (createGoal_fulfilled Examples.goals_state
                     (Examples.goal_of 2 200 50)))) = [25; 25] /\
  updateGoal_fulfilled Examples.goals_state (Examples.goal_of 1 0 50)
  = ({| goals := [{| base := Examples.goal_of 1 0 50;
                     progress_percentage := 0 |}];
        goal := Some {| base := Examples.goal_of 1 0 50;
                        progress_percentage := 0 |};
        loading := false;
        error := None |}, []).
Proof. split; reflexivity. Qed.

End GoalsProofs.

(** ** The pages: totals and the budget cards *)

Module PagesProofs.
Import Transaction.

Lemma fold_filter_amounts (tag : string) (l : list TransactionWithCategory) :
  forall acc : number,
    fold_left (fun sum t => sum + amount t) (filter (has_type tag) l) acc
    = fold_left (fun sum t => if has_type tag t then sum + amount t else sum)
                l acc.
Proof.
  induction l as [|t l IH]; intros acc; cbn [filter fold_left].
  - reflexivity.
  - destruct (has_type tag t); cbn [fold_left]; apply IH.
Qed.

Lemma sum_amounts_filter (tag : string) (l : list TransactionWithCategory) :
  sum_amounts (filter (has_type tag) l) = Reference.sum_of_type tag l.
Proof. apply fold_filter_amounts. Qed.

Lemma filter_skips (tag : string) (l1 l2 : list TransactionWithCategory)
  (t : TransactionWithCategory) :
  has_type tag t = false ->
  filter (has_type tag) (l1 ++ t :: l2) = filter (has_type tag) (l1 ++ l2).
Proof.
  intros H. rewrite !filter_app. cbn [filter]. now rewrite H.
Qed.

Lemma income_is_not_expense (t : TransactionWithCategory) :
  has_type "income" t = true -> has_type "expense" t = false.
Proof.
  unfold has_type. destruct (type t) as [s|]; [|discriminate].
  intros H. apply String.eqb_eq in H. now subst s.
Qed.

Lemma expense_is_not_income (t : TransactionWithCategory) :
  has_type "expense" t = true -> has_type "income" t = false.
Proof.
  unfold has_type. destruct (type t) as [s|]; [|discriminate].
  intros H. apply String.eqb_eq in H. now subst s.
Qed.

Lemma nonempty_length {A : Type} (l : list A) :
  l <> [] -> Nat.ltb 0 (List.length l) = true.
Proof. destruct l; [congruence | reflexivity]. Qed.

Lemma summary_after_transactions
  (l : list TransactionWithCategory)
  (pf : list Investments.InvestmentWithMarketData) (s : Dashboard.Summary) :
  l <> [] ->
  Dashboard.totalIncome (Dashboard.summaryEffect l pf s)
  = sum_amounts (filter (has_type "income") l) /\
  Dashboard.totalExpense (Dashboard.summaryEffect l pf s)
  = sum_amounts (filter (has_type "expense") l).
Proof.
  intros H. unfold Dashboard.summaryEffect.
  rewrite (nonempty_length l H).
  destruct (Nat.ltb 0 (List.length pf)); split; reflexivity.
Qed.

(** C5, as stated, fails on the Dashboard: after a refresh that yields no
    transaction the expense total is the one of the previous list, not the
    sum over the (empty) list. *)
Lemma dashboard_total_not_sum_on_empty :
  exists (l : list TransactionWithCategory) (s : Dashboard.Summary),
    Dashboard.totalExpense (Dashboard.summaryEffect l [] s) = 50 /\
    Reference.sum_of_type "expense" l = 0 /\
    Dashboard.totalExpense (Dashboard.summaryEffect l [] s)
    <> Reference.sum_of_type "expense" l.
Proof.
  exists [], Examples.march_summary. repeat split.
  intros H. apply (f_equal (fun x => PrimFloat.eqb x 0)) in H.
  vm_compute in H. discriminate.
Qed.

(** C5, amended. The expense total is the sum of the amounts of exactly the
    expense-typed entries and the income total that of the income-typed
    ones; an income-typed entry anywhere in the list changes nothing to the
    expense total, and conversely. This holds for the Transactions page on
    every list, and for the Dashboard summary on every non-empty list. *)
Theorem totals_by_type (l : list TransactionWithCategory) :
  TransactionsPage.totalExpense l = Reference.sum_of_type "expense" l /\
  TransactionsPage.totalIncome l = Reference.sum_of_type "income" l /\
  (forall l1 l2 t,
      has_type "income" t = true ->
      TransactionsPage.totalExpense (l1 ++ t :: l2)
      = TransactionsPage.totalExpense (l1 ++ l2)) /\
  (forall l1 l2 t,
      has_type "expense" t = true ->
      TransactionsPage.totalIncome (l1 ++ t :: l2)
      = TransactionsPage.totalIncome (l1 ++ l2)) /\
  (forall pf s,
      l <> [] ->
      Dashboard.totalExpense (Dashboard.summaryEffect l pf s)
      = Reference.sum_of_type "expense" l /\
      Dashboard.totalIncome (Dashboard.summaryEffect l pf s)
      = Reference.sum_of_type "income" l).
Proof.
  split; [|split; [|split; [|split]]].
  - apply sum_amounts_filter.
  - apply sum_amounts_filter.
  - intros l1 l2 t H. unfold TransactionsPage.totalExpense.
    now rewrite (filter_skips _ l1 l2 t (income_is_not_expense t H)).
  - intros l1 l2 t H. unfold TransactionsPage.totalIncome.
    now rewrite (filter_skips _ l1 l2 t (expense_is_not_income t H)).
  - intros pf s H.
    destruct (summary_after_transactions l pf s H) as [Hi He].
    rewrite Hi, He, !sum_amounts_filter. split; reflexivity.
Qed.

Lemma totals_by_type_witness :
  (TransactionsPage.totalExpense Examples.march = 50 /\
   TransactionsPage.totalIncome Examples.march = 1000) /\
  (Dashboard.totalExpense
     (Dashboard.summaryEffect Examples.march [] Dashboard.initialSummary)
   = 50 /\
   Dashboard.totalIncome
     (Dashboard.summaryEffect Examples.march [] Dashboard.initialSummary)
   = 1000).
Proof.
  pose proof (totals_by_type Examples.march) as [He [Hi [_ [_ Hd]]]].
  split; [split; [exact He | exact Hi]|].
  exact (Hd [] Dashboard.initialSummary ltac:(discriminate)).
Defined.

(** C9. The summary effect recomputes the transaction totals only from a
    non-empty list: on an empty [transactions] list [totalIncome],
    [totalExpense] and [netSavings] keep their previous values, and on an
    empty [portfolioWithMarketData] so do [totalPortfolioValue] and
    [totalPortfolioProfit]. *)
Theorem summary_kept_on_empty
  (l : list TransactionWithCategory)
  (pf : list Investments.InvestmentWithMarketData) (s : Dashboard.Summary) :
  let s' := Dashboard.summaryEffect l pf s in
  (l = [] ->
   Dashboard.totalIncome s' = Dashboard.totalIncome s /\
   Dashboard.totalExpense s' = Dashboard.totalExpense s /\
   Dashboard.netSavings s' = Dashboard.netSavings s) /\
  (pf = [] ->
   Dashboard.totalPortfolioValue s' = Dashboard.totalPortfolioValue s /\
   Dashboard.totalPortfolioProfit s' = Dashboard.totalPortfolioProfit s).
Proof.
  cbv zeta. split.
  - intros ->. unfold Dashboard.summaryEffect.
    change (Nat.ltb 0 (@List.length TransactionWithCategory [])) with false.
    destruct (Nat.ltb 0 (List.length pf)); repeat split.
  - intros ->. unfold Dashboard.summaryEffect.
    change (Nat.ltb 0 (@List.length Investments.InvestmentWithMarketData []))
      with false.
    destruct (Nat.ltb 0 (List.length l)); repeat split.
Qed.

(** After [march] the lists become empty: the summary still shows the totals
    of [march], none of which is the 0 an empty list sums to. *)
Lemma summary_kept_on_empty_witness :
  let s' := Dashboard.summaryEffect [] [] Examples.march_summary in
  (Dashboard.totalIncome s' = 1000 /\
   Dashboard.totalExpense s' = 50 /\
   Dashboard.netSavings s' = 950) /\
  (Dashboard.totalPortfolioValue s' = 122 /\
   Dashboard.totalPortfolioProfit s' = 2).
Proof.
  cbv zeta.
  pose proof (summary_kept_on_empty [] [] Examples.march_summary) as [Ht Hp].
  split; [exact (Ht eq_refl) | exact (Hp eq_refl)].
Defined.

(** The totals are recomputed from a non-empty list, whatever they were. *)
Example summary_recomputed_on_march :
  Dashboard.summaryEffect Examples.march
    [Examples.position; Examples.other_position] Dashboard.initialSummary
  = Examples.march_summary.
Proof. reflexivity. Qed.

(** C7, as stated, fails for a budget the Dashboard does not render: of four
    budgets it shows three cards, and the fourth budget's percentage (200)
    is on none of them; while the budgets load it shows no card at all. *)
Lemma fourth_budget_not_shown :
  map Budgets.percentage_used Examples.four_budgets = [150; 25; 90; 200] /\
  (exists cards,
      Dashboard.budgetProgress false Examples.four_budgets
      = Dashboard.Cards cards /\
      map Dashboard.used_label cards = [150; 25; 90]) /\
  Dashboard.budgetProgress true Examples.four_budgets
  = Dashboard.LoadingBudgets.
Proof.
  split; [reflexivity | split; [|reflexivity]].
  eexists. split; reflexivity.
Qed.

(** C7, amended. For each of the first three budgets of
    [budgetsWithProgress], when the budgets are not loading, the card at the
    same position shows [percentage_used] itself (as formatted by
    [toFixed(0)]), not a clamped value; the width of its bar is
    [Math.min(percentage_used, 100)], which is 100 above 100 and
    [percentage_used] below 100; the card's other figures are the budget's
    own fields. *)
Theorem budget_card_shows_raw_percentage
  (budgetsWithProgress : list Budgets.BudgetWithProgress)
  (i : nat) (b : Budgets.BudgetWithProgress) :
  nth_error budgetsWithProgress i = Some b ->
  (i < 3)%nat ->
  exists cards card,
    Dashboard.budgetProgress false budgetsWithProgress
    = Dashboard.Cards cards /\
    nth_error cards i = Some card /\
    Dashboard.used_label card = Budgets.percentage_used b /\
    Dashboard.bar_width card = Math_min (Budgets.percentage_used b) 100 /\
    (gt (Budgets.percentage_used b) 100 = true ->
     Dashboard.bar_width card = 100 /\
     Dashboard.bar_class card = Dashboard.bg_red_600) /\
    (PrimFloat.ltb (Budgets.percentage_used b) 100 = true ->
     Dashboard.bar_width card = Budgets.percentage_used b) /\
    Dashboard.spent_shown card = Budgets.spent_amount b /\
    Dashboard.remaining_shown card = Budgets.remaining_amount b.
Proof.
  intros Hi Hlt.
  exists (map Dashboard.budgetCard (firstn 3 budgetsWithProgress)),
         (Dashboard.budgetCard b).
  split; [|split].
  - unfold Dashboard.budgetProgress.
    destruct budgetsWithProgress; [destruct i; discriminate | reflexivity].
  - rewrite nth_error_map, nth_error_firstn.
    apply Nat.ltb_lt in Hlt. now rewrite Hlt, Hi.
  - cbn [Dashboard.budgetCard Dashboard.used_label Dashboard.bar_width
         Dashboard.bar_class Dashboard.spent_shown Dashboard.remaining_shown].
    repeat split.
    + now apply Math_min_capped.
    + now rewrite H.
    + now apply Math_min_below.
Qed.

Lemma budget_card_shows_raw_percentage_witness :
  exists cards card,
    Dashboard.budgetProgress false Examples.four_budgets
    = Dashboard.Cards cards /\
    nth_error cards 0 = Some card /\
    Dashboard.used_label card = 150 /\
    Dashboard.bar_width card = Math_min 150 100 /\
    (gt 150 100 = true ->
     Dashboard.bar_width card = 100 /\
     Dashboard.bar_class card = Dashboard.bg_red_600) /\
    (PrimFloat.ltb 150 100 = true -> Dashboard.bar_width card = 150) /\
    Dashboard.spent_shown card = 150 /\
    Dashboard.remaining_shown card = -50.
Proof.
  exact (budget_card_shows_raw_percentage Examples.four_budgets 0
           (Examples.progress 1 100 150 (-50) 150) eq_refl
           (le_S _ _ (le_S _ _ (le_n 1)))).
Defined.

End PagesProofs.

(** ** Failed requests *)

Module StoreProofs.

(** C10. A rejected thunk of the investments slice or of the budgets slice
    sets [loading] to [false] and [error] to the rejection value and leaves
    the cached data ([investments], [portfolioWithMarketData],
    [investment]; [budgets], [budgetsWithProgress], [budget]) as it was. *)
Theorem rejected_keeps_cache
  (si : Investments.InvestmentsState) (ai : Investments.Action) (vi : string)
  (sb : Budgets.BudgetsState) (ab : Budgets.Action) (vb : string) :
  Investments.rejection ai = Some vi ->
  Budgets.rejection ab = Some vb ->
  let si' := value (Investments.reducer si ai) in
  let sb' := Budgets.reducer sb ab in
  (Investments.loading si' = false /\
   Investments.error si' = Some vi /\
   Investments.investments si' = Investments.investments si /\
   Investments.portfolioWithMarketData si'
   = Investments.portfolioWithMarketData si /\
   Investments.investment si' = Investments.investment si) /\
  (Budgets.loading sb' = false /\
   Budgets.error sb' = Some vb /\
   Budgets.budgets sb' = Budgets.budgets sb /\
   Budgets.budgetsWithProgress sb' = Budgets.budgetsWithProgress sb /\
   Budgets.budget sb' = Budgets.budget sb).
Proof.
  intros Hi Hb. cbv zeta.
  rewrite (InvestmentsProofs.investments_rejected_frame si ai vi Hi).
  rewrite (BudgetsProofs.budgets_rejected_frame sb ab vb Hb).
  repeat split.
Qed.

Lemma rejected_keeps_cache_witness :
  let si' :=
    value (Investments.reducer Examples.portfolio_state
             (Investments.updateInvestment_rejected
                "Failed to update investment.")) in
  let sb' :=
    Budgets.reducer Examples.budgets_state
      (Budgets.getBudgetsWithProgress_rejected
         "Failed to fetch budget progress.") in
  (Investments.loading si' = false /\
   Investments.error si' = Some "Failed to update investment." /\
   Investments.investments si'
   = Investments.investments Examples.portfolio_state /\
   Investments.portfolioWithMarketData si'
   = Investments.portfolioWithMarketData Examples.portfolio_state /\
   Investments.investment si'
   = Investments.investment Examples.portfolio_state) /\
  (Budgets.loading sb' = false /\
   Budgets.error sb' = Some "Failed to fetch budget progress." /\
   Budgets.budgets sb' = Budgets.budgets Examples.budgets_state /\
   Budgets.budgetsWithProgress sb'
   = Budgets.budgetsWithProgress Examples.budgets_state /\
   Budgets.budget sb' = Budgets.budget Examples.budgets_state).
Proof.
  exact (rejected_keeps_cache
           Examples.portfolio_state
           (Investments.updateInvestment_rejected
              "Failed to update investment.")
           "Failed to update investment."
           Examples.budgets_state
           (Budgets.getBudgetsWithProgress_rejected
              "Failed to fetch budget progress.")
           "Failed to fetch budget progress."
           eq_refl eq_refl).
Defined.

(** The actions [rejection] recognises are the six rejected thunks of each
    slice, and no other action. *)
Example rejection_covers_the_rejected_thunks :
  map Investments.rejection
    [Investments.getInvestments_rejected "e";
     Investments.getPortfolioWithMarketData_rejected "e";
     Investments.getInvestment_rejected "e";
     Investments.createInvestment_rejected "e";
     Investments.updateInvestment_rejected "e";
     Investments.deleteInvestment_rejected "e";
     Investments.updateInvestment_pending;
     Investments.clearInvestmentError]
  = [Some "e"; Some "e"; Some "e"; Some "e"; Some "e"; Some "e"; None; None] /\
  map Budgets.rejection
    [Budgets.getBudgets_rejected "e";
     Budgets.getBudgetsWithProgress_rejected "e";
     Budgets.getBudget_rejected "e";
     Budgets.createBudget_rejected "e";
     Budgets.updateBudget_rejected "e";
     Budgets.deleteBudget_rejected "e";
     Budgets.updateBudget_pending;
     Budgets.clearBudgetError]
  = [Some "e"; Some "e"; Some "e"; Some "e"; Some "e"; Some "e"; None; None].
Proof. split; reflexivity. Qed.

End StoreProofs.

(** * Further properties of the store and the pages *)

(** ** More on binary64 comparison *)

Section ComparisonMore.

Lemma ltb_irrefl (x : number) : PrimFloat.ltb x x = false.
Proof.
  rewrite FloatAxioms.ltb_spec. unfold SFltb.
  pose proof (SFcompare_antisym (Prim2SF x) (Prim2SF x)) as H.
  destruct (SFcompare (Prim2SF x) (Prim2SF x)) as [[| |]|];
    simpl in H; congruence.
Qed.

Lemma ltb_nan_r (x : number) : PrimFloat.ltb x PrimFloat.nan = false.
Proof.
  rewrite FloatAxioms.ltb_spec. unfold SFltb.
  change (Prim2SF PrimFloat.nan) with S754_nan.
  destruct (Prim2SF x); reflexivity.
Qed.

(** [Math.min(a, cap)] is never above [cap], whatever [a] is. *)
Lemma Math_min_never_above (a cap : number) :
  gt (Math_min a cap) cap = false.
Proof.
  unfold Math_min, gt.
  destruct (isNaN a || isNaN cap); [apply ltb_nan_r|].
  destruct (PrimFloat.ltb a cap) eqn:Hlt.
  - exact (gt_not_lt cap a Hlt).
  - destruct (PrimFloat.ltb cap a) eqn:Hgt; [apply ltb_irrefl|].
    destruct (is_neg_zero a); [exact Hgt | apply ltb_irrefl].
Qed.

End ComparisonMore.

(** ** Lists of entities replaced and removed by id *)

Section ById.

Context {A : Type} (key : A -> number).

(** The callbacks of [.map(x => x.id === p.id ? p : x)] and of
    [.filter(x => x.id !== i)]. *)
Local Abbreviation replace_by p :=
  (fun x => if strict_eq (key x) (key p) then p else x).
Local Abbreviation other_than i := (fun x => negb (strict_eq (key x) i)).

Lemma filter_after_replace (p : A) (l : list A) :
  filter (other_than (key p)) (map (replace_by p) l)
  = filter (other_than (key p)) l.
Proof.
  induction l as [|x l IH]; [reflexivity|].
  cbn [map filter].
  destruct (strict_eq (key x) (key p)) eqn:Hx.
  - rewrite (strict_eq_match_refl _ _ Hx). cbn [negb]. exact IH.
  - rewrite Hx. cbn [negb]. now rewrite IH.
Qed.

Lemma filter_all_kept (i : number) (l : list A) :
  Forall (fun x => strict_eq (key x) i = false) l ->
  filter (other_than i) l = l.
Proof.
  induction 1 as [|x l Hx _ IH]; [reflexivity|].
  cbn [filter]. rewrite Hx. cbn [negb]. now rewrite IH.
Qed.

Lemma filter_after_push (p : A) (l : list A) :
  strict_eq (key p) (key p) = true ->
  Forall (fun x => strict_eq (key x) (key p) = false) l ->
  filter (other_than (key p)) (l ++ [p]) = l.
Proof.
  intros Hp Hl. rewrite filter_app, (filter_all_kept _ l Hl).
  cbn [filter]. rewrite Hp. apply app_nil_r.
Qed.

Lemma filter_none_left (i : number) (l : list A) :
  Forall (fun x => strict_eq (key x) i = false) (filter (other_than i) l).
Proof.
  apply Forall_forall. intros x Hin. apply filter_In in Hin.
  destruct Hin as [_ H].
  now destruct (strict_eq (key x) i).
Qed.

Lemma map_none_named (p : A) (l : list A) :
  Forall (fun x => strict_eq (key x) (key p) = false) l ->
  map (replace_by p) l = l.
Proof.
  induction 1 as [|x l Hx _ IH]; [reflexivity|].
  cbn [map]. now rewrite Hx, IH.
Qed.

Lemma map_replace_twice (p : A) (l : list A) :
  map (replace_by p) (map (replace_by p) l) = map (replace_by p) l.
Proof.
  rewrite map_map. apply map_ext. intros x.
  destruct (strict_eq (key x) (key p)) eqn:Hx.
  - now rewrite (strict_eq_match_refl _ _ Hx).
  - now rewrite Hx.
Qed.

End ById.

(** ** The investments slice: deleting, creating and editing holdings *)

Module InvestmentsMore.
Import Investments.

(** After [deleteInvestment.fulfilled] no cached holding or position has
    the deleted id, every holding and position with another id is still
    there, and the current investment is cleared exactly when it had the
    deleted id. *)
Theorem delete_removes_every_match (state : InvestmentsState) (i : number) :
  let state' := value (reducer state (deleteInvestment_fulfilled i)) in
  Forall (fun x => strict_eq (id x) i = false) (investments state') /\
  Forall (fun e => strict_eq (id (base e)) i = false)
         (portfolioWithMarketData state') /\
  (forall x, In x (investments state) ->
             strict_eq (id x) i = false -> In x (investments state')) /\
  (forall e, In e (portfolioWithMarketData state) ->
             strict_eq (id (base e)) i = false ->
             In e (portfolioWithMarketData state')) /\
  investment state'
  = (if current_has_id state i then None else investment state) /\
  error state' = error state /\
  loading state' = false.
Proof.
  cbv zeta. cbn [reducer value ret fst investments portfolioWithMarketData
                 investment error loading].
  repeat split.
  - apply (filter_none_left id).
  - apply (filter_none_left (fun e => id (base e))).
  - intros x Hin Hx. apply filter_In. split; [exact Hin | now rewrite Hx].
  - intros e Hin He. apply filter_In. split; [exact Hin | now rewrite He].
Qed.

(** An edit touches only the positions the payload names: a cached position
    with another id is left exactly as it was, and a named one takes the
    payload as its holding and loses its error flag. *)
Theorem update_touches_only_named
  (state : InvestmentsState) (payload : Investment)
  (i : nat) (e : InvestmentWithMarketData) :
  nth_error (portfolioWithMarketData state) i = Some e ->
  exists e',
    nth_error
      (portfolioWithMarketData
         (value (reducer state (updateInvestment_fulfilled payload)))) i
    = Some e' /\
    (strict_eq (id (base e)) (id payload) = false -> e' = e) /\
    (strict_eq (id (base e)) (id payload) = true ->
     base e' = payload /\ error_flag e' = None).
Proof.
  intros Hi. exists (value (recalculate payload e)). split.
  - now apply InvestmentsProofs.entry_after_update.
  - unfold recalculate.
    destruct (strict_eq (id (base e)) (id payload)); split;
      try discriminate; intros _; [split|]; reflexivity.
Qed.

Lemma update_touches_only_named_witness :
  exists e',
    nth_error
      (portfolioWithMarketData
         (value (reducer Examples.portfolio_state
                   (updateInvestment_fulfilled (Examples.holding 1 10 5))))) 1
    = Some e' /\
    (strict_eq 2 1 = false -> e' = Examples.other_position) /\
    (strict_eq 2 1 = true ->
     base e' = Examples.holding 1 10 5 /\ error_flag e' = None).
Proof.
  exact (update_touches_only_named Examples.portfolio_state
           (Examples.holding 1 10 5) 1 Examples.other_position eq_refl).
Defined.

(** An edit whose payload names nothing in the cache changes nothing but
    [loading], and divides nothing. *)
Theorem update_unknown_id_changes_nothing
  (state : InvestmentsState) (payload : Investment) :
  Forall (fun x => strict_eq (id x) (id payload) = false)
         (investments state) ->
  Forall (fun e => strict_eq (id (base e)) (id payload) = false)
         (portfolioWithMarketData state) ->
  current_has_id state (id payload) = false ->
  reducer state (updateInvestment_fulfilled payload)
  = ({| investments := investments state;
        portfolioWithMarketData := portfolioWithMarketData state;
        investment := investment state;
        loading := false;
        error := error state |}, []).
Proof.
  intros Hi Hp Hc.
  assert (Hmap : array_map (recalculate payload) (portfolioWithMarketData state)
                 = (portfolioWithMarketData state, [])).
  { induction Hp as [|e l He _ IH]; [reflexivity|].
    cbn [array_map]. unfold recalculate at 1. rewrite He, IH. reflexivity. }
  cbn [reducer]. rewrite Hmap, Hc, (map_none_named id payload _ Hi).
  reflexivity.
Qed.

Lemma update_unknown_id_changes_nothing_witness :
  reducer Examples.portfolio_state
    (updateInvestment_fulfilled (Examples.holding 9 10 5))
  = ({| investments := investments Examples.portfolio_state;
        portfolioWithMarketData :=
          portfolioWithMarketData Examples.portfolio_state;
        investment := investment Examples.portfolio_state;
        loading := false;
        error := error Examples.portfolio_state |}, []).
Proof.
  apply update_unknown_id_changes_nothing.
  - repeat constructor.
  - repeat constructor.
  - reflexivity.
Defined.

Lemma filter_after_recalculate
  (payload : Investment) (l : list InvestmentWithMarketData) :
  filter (fun e => negb (strict_eq (id (base e)) (id payload)))
         (map (fun e => value (recalculate payload e)) l)
  = filter (fun e => negb (strict_eq (id (base e)) (id payload))) l.
Proof.
  induction l as [|e l IH]; [reflexivity|].
  cbn [map filter]. rewrite IH.
  remember (value (recalculate payload e)) as e' eqn:He'.
  unfold recalculate in He'.
  destruct (strict_eq (id (base e)) (id payload)) eqn:He.
  - cbn [value bind divide ret fst] in He'. subst e'. cbn [base].
    now rewrite (strict_eq_match_refl _ _ He).
  - cbn [value ret fst] in He'. subst e'. now rewrite He.
Qed.

(** Deleting a holding right after editing it leaves the state that
    deleting it without the edit leaves. *)
Theorem delete_after_update (state : InvestmentsState) (payload : Investment) :
  value (reducer
           (value (reducer state (updateInvestment_fulfilled payload)))
           (deleteInvestment_fulfilled (id payload)))
  = value (reducer state (deleteInvestment_fulfilled (id payload))).
Proof.
  set (s1 := value (reducer state (updateInvestment_fulfilled payload))).
  assert (Hp1 : portfolioWithMarketData s1
                = map (fun e => value (recalculate payload e))
                      (portfolioWithMarketData state))
    by apply InvestmentsProofs.portfolio_after_update.
  assert (Hi1 : investments s1
                = map (fun x => if strict_eq (id x) (id payload)
                                then payload else x)
                      (investments state)).
  { unfold s1. cbn [reducer]. rewrite value_bind. reflexivity. }
  assert (Hc1 : investment s1
                = if current_has_id state (id payload) then Some payload
                  else investment state).
  { unfold s1. cbn [reducer]. rewrite value_bind. reflexivity. }
  assert (He1 : error s1 = error state).
  { unfold s1. cbn [reducer]. rewrite value_bind. reflexivity. }
  cbn [reducer value ret fst]. f_equal.
  - rewrite Hi1. apply (filter_after_replace id).
  - rewrite Hp1. apply filter_after_recalculate.
  - unfold current_has_id. rewrite Hc1. unfold current_has_id.
    destruct (investment state) as [inv|]; [|reflexivity].
    destruct (strict_eq (id inv) (id payload)) eqn:Hid.
    + now rewrite (strict_eq_match_refl _ _ Hid).
    + now rewrite Hid.
  - exact He1.
Qed.

(** Creating a holding and then deleting it gives back the list of holdings,
    provided its id is a number (not NaN) that no cached holding has. *)
Theorem delete_after_create (state : InvestmentsState) (payload : Investment) :
  strict_eq (id payload) (id payload) = true ->
  Forall (fun x => strict_eq (id x) (id payload) = false)
         (investments state) ->
  investments
    (value (reducer
              (value (reducer state (createInvestment_fulfilled payload)))
              (deleteInvestment_fulfilled (id payload))))
  = investments state.
Proof.
  intros Hp Hl. cbn [reducer value ret fst investments].
  now apply (filter_after_push id).
Qed.

Lemma delete_after_create_witness :
  investments
    (value (reducer
              (value (reducer Examples.portfolio_state
                        (createInvestment_fulfilled (Examples.holding 3 2 40))))
              (deleteInvestment_fulfilled 3)))
  = investments Examples.portfolio_state.
Proof.
  apply (delete_after_create Examples.portfolio_state (Examples.holding 3 2 40)).
  - reflexivity.
  - repeat constructor.
Defined.

End InvestmentsMore.

(** ** The budgets slice: what keeps the cached progress consistent *)

Module BudgetsMore.
Import Budgets.

(** Every action of the budgets slice other than [updateBudget.fulfilled]
    and [getBudgetsWithProgress.fulfilled] keeps
    [remaining_amount = amount - spent_amount] on all cached entries. *)
Theorem relation_kept_by_other_actions
  (state : BudgetsState) (action : Action) :
  (forall payload, action <> updateBudget_fulfilled payload) ->
  (forall payload, action <> getBudgetsWithProgress_fulfilled payload) ->
  Forall remaining_consistent (budgetsWithProgress state) ->
  Forall remaining_consistent (budgetsWithProgress (reducer state action)).
Proof.
  intros Hu Hg Hinv.
  destruct action; try exact Hinv.
  - now destruct (Hg payload).
  - now destruct (Hu payload).
  - now apply BudgetsProofs.delete_budget_invariant.
Qed.

Lemma relation_kept_by_other_actions_witness :
  Forall remaining_consistent
    (budgetsWithProgress
       (reducer Examples.budgets_state
          (getBudgets_fulfilled []))).
Proof.
  apply (relation_kept_by_other_actions Examples.budgets_state
           (getBudgets_fulfilled [])).
  - intros payload. discriminate.
  - intros payload. discriminate.
  - constructor; [reflexivity | constructor].
Defined.

(** [updateBudget.fulfilled] keeps the number and order of the cached
    progress entries and, on every one of them, the category name, the spent
    amount, the remaining amount and the percentage used; the amount of an
    entry becomes the payload's exactly when the payload names it. *)
Theorem update_budget_keeps_progress_fields
  (state : BudgetsState) (payload : Budget) :
  let after :=
    budgetsWithProgress (reducer state (updateBudget_fulfilled payload)) in
  map spent_amount after = map spent_amount (budgetsWithProgress state) /\
  map remaining_amount after
  = map remaining_amount (budgetsWithProgress state) /\
  map percentage_used after
  = map percentage_used (budgetsWithProgress state) /\
  map (fun b => category_name (base b)) after
  = map (fun b => category_name (base b)) (budgetsWithProgress state) /\
  map (fun b => amount (budget_of (base b))) after
  = map (fun b => if strict_eq (id (budget_of (base b))) (id payload)
                  then amount payload
                  else amount (budget_of (base b)))
        (budgetsWithProgress state).
Proof.
  cbv zeta. cbn [reducer budgetsWithProgress]. rewrite !map_map.
  repeat split; apply map_ext; intros b;
    destruct (strict_eq (id (budget_of (base b))) (id payload)); reflexivity.
Qed.

End BudgetsMore.

(** ** The goals slice: editing twice *)

Module GoalsMore.
Import Goals.

(** Applying [updateGoal.fulfilled] a second time with the same payload
    gives the state the first application gave. *)
Theorem update_goal_idempotent (state : GoalsState) (payload : Goal) :
  value (updateGoal_fulfilled
           (value (updateGoal_fulfilled state payload)) payload)
  = value (updateGoal_fulfilled state payload).
Proof.
  unfold updateGoal_fulfilled. rewrite !value_bind.
  cbn [value ret fst goals goal loading error].
  set (entry := {| base := payload;
                   progress_percentage :=
                     value (progressPercentage payload) |}).
  f_equal.
  - apply (map_replace_twice (fun g => id (base g)) entry).
  - destruct (goal state) as [g|]; [|reflexivity].
    destruct (strict_eq (id (base g)) (id payload)) eqn:Hg.
    + unfold entry at 1. cbn [base].
      now rewrite (strict_eq_match_refl _ _ Hg).
    + now rewrite Hg.
Qed.

End GoalsMore.

(** ** The Dashboard: summary cells and panels *)

Module DashboardMore.
Import Transaction.

Lemma summary_keeps_net (l : list TransactionWithCategory)
  (pf : list Investments.InvestmentWithMarketData) (s : Dashboard.Summary) :
  Dashboard.netSavings s
  = Dashboard.totalIncome s - Dashboard.totalExpense s ->
  Dashboard.netSavings (Dashboard.summaryEffect l pf s)
  = Dashboard.totalIncome (Dashboard.summaryEffect l pf s)
    - Dashboard.totalExpense (Dashboard.summaryEffect l pf s).
Proof.
  intros H. unfold Dashboard.summaryEffect.
  destruct (Nat.ltb 0 (List.length l)), (Nat.ltb 0 (List.length pf));
    cbn; try reflexivity; exact H.
Qed.

(** However many times the summary effect has run, and on whatever lists,
    the net savings shown are the income shown minus the expenses shown. *)
Theorem net_savings_always_consistent
  (refreshes : list (list TransactionWithCategory
                     * list Investments.InvestmentWithMarketData)) :
  let s := fold_left (fun s r => Dashboard.summaryEffect (fst r) (snd r) s)
                     refreshes Dashboard.initialSummary in
  Dashboard.netSavings s
  = Dashboard.totalIncome s - Dashboard.totalExpense s.
Proof.
  cbv zeta.
  assert (H : Dashboard.netSavings Dashboard.initialSummary
              = Dashboard.totalIncome Dashboard.initialSummary
                - Dashboard.totalExpense Dashboard.initialSummary)
    by reflexivity.
  revert H. generalize Dashboard.initialSummary.
  induction refreshes as [|r rs IH]; intros s H; [exact H|].
  cbn [fold_left]. apply IH. now apply summary_keeps_net.
Qed.

(** Running the summary effect again on the same lists changes nothing. *)
Theorem summary_effect_idempotent (l : list TransactionWithCategory)
  (pf : list Investments.InvestmentWithMarketData) (s : Dashboard.Summary) :
  Dashboard.summaryEffect l pf (Dashboard.summaryEffect l pf s)
  = Dashboard.summaryEffect l pf s.
Proof.
  unfold Dashboard.summaryEffect.
  destruct (Nat.ltb 0 (List.length l)), (Nat.ltb 0 (List.length pf));
    cbn; try reflexivity; now destruct s.
Qed.

Lemma firstn_length_le {A : Type} (n : nat) (l : list A) :
  (List.length (firstn n l) <= n)%nat.
Proof. rewrite length_firstn. apply Nat.le_min_l. Qed.

(** The Budget Progress and Financial Goals panels show at most three cards
    each, and no progress bar is wider than 100 per cent, whatever the
    percentage (above 100, infinite or NaN). *)
Theorem bars_never_wider_than_100
  (budgetsLoading goalsLoading : bool)
  (budgetsWithProgress : list Budgets.BudgetWithProgress)
  (goals : list Goals.GoalWithProgress) :
  (forall cards,
      Dashboard.budgetProgress budgetsLoading budgetsWithProgress
      = Dashboard.Cards cards ->
      (List.length cards <= 3)%nat /\
      Forall (fun c => gt (Dashboard.bar_width c) 100 = false) cards) /\
  (forall cards,
      DashboardPanels.financialGoals goalsLoading goals
      = DashboardPanels.GoalCards cards ->
      (List.length cards <= 3)%nat /\
      Forall (fun c => gt (DashboardPanels.goal_bar_width c) 100 = false)
             cards).
Proof.
  split; intros cards H.
  - unfold Dashboard.budgetProgress in H.
    destruct budgetsLoading; [discriminate|].
    destruct (Nat.eqb (List.length budgetsWithProgress) 0); [discriminate|].
    assert (E : cards
                = map Dashboard.budgetCard (firstn 3 budgetsWithProgress))
      by congruence.
    rewrite E. clear H E. split.
    + rewrite length_map. apply firstn_length_le.
    + apply Forall_forall. intros c Hin. apply in_map_iff in Hin.
      destruct Hin as [b [<- _]]. apply Math_min_never_above.
  - unfold DashboardPanels.financialGoals in H.
    destruct goalsLoading; [discriminate|].
    destruct (Nat.eqb (List.length goals) 0); [discriminate|].
    assert (E : cards = map DashboardPanels.goalCard (firstn 3 goals))
      by congruence.
    rewrite E. clear H E. split.
    + rewrite length_map. apply firstn_length_le.
    + apply Forall_forall. intros c Hin. apply in_map_iff in Hin.
      destruct Hin as [g [<- _]]. apply Math_min_never_above.
Qed.



End DashboardMore.

(** ** The Transactions page: search and sorting *)

Module ControlsProofs.
Import Transaction TransactionsControls.

Lemma includes_empty (s : string) : includes s "" = true.
Proof. destruct s; reflexivity. Qed.

Lemma filter_throwing_none {A : Type} (f : A -> option bool) (l : list A) :
  filter_throwing f l = None <-> exists x, In x l /\ f x = None.
Proof.
  induction l as [|x xs IH]; cbn [filter_throwing].
  - split; [discriminate | intros [x [[] _]]].
  - destruct (f x) as [keep|] eqn:Hx.
    + destruct (filter_throwing f xs) as [ys|].
      * split; [discriminate|]. intros [y [[<- | Hin] Hy]].
        -- congruence.
        -- assert (H : Some ys = None) by (apply IH; eauto).
           discriminate.
      * split; [|reflexivity]. intros _.
        destruct (proj1 IH eq_refl) as [y [Hin Hy]].
        exists y. split; [now right | exact Hy].
    + split; [|reflexivity]. intros _. exists x. split; [now left | exact Hx].
Qed.

Lemma filter_throwing_some {A : Type} (f : A -> option bool) (l : list A) :
  Forall (fun x => f x <> None) l ->
  filter_throwing f l
  = Some (filter (fun x => match f x with Some b => b | None => false end) l).
Proof.
  induction 1 as [|x xs Hx _ IH]; [reflexivity|].
  cbn [filter_throwing filter]. rewrite IH.
  destruct (f x) as [[|]|]; [reflexivity | reflexivity | congruence].
Qed.

(** Building [filteredTransactions] throws exactly when some transaction of
    the list has no description, whatever the search term is. *)
Theorem search_throws_iff_description_missing
  (toLowerCase : string -> string) (searchTerm : string)
  (transactions : list TransactionWithCategory) :
  filteredTransactions toLowerCase searchTerm transactions = None <->
  exists t, In t transactions /\ description t = None.
Proof.
  unfold filteredTransactions. rewrite filter_throwing_none.
  split; intros [t [Hin H]]; exists t; (split; [exact Hin|]).
  - unfold matches_search in H. destruct (description t); [|reflexivity].
    destruct (includes _ _); discriminate.
  - unfold matches_search. now rewrite H.
Qed.

(** When every transaction has a description, the search keeps, in order,
    exactly the transactions whose lowered description or lowered category
    name contains the lowered search term; a term that lowers to the empty
    string keeps them all. *)
Theorem search_result
  (toLowerCase : string -> string) (searchTerm : string)
  (transactions : list TransactionWithCategory) :
  Forall (fun t => description t <> None) transactions ->
  filteredTransactions toLowerCase searchTerm transactions
  = Some (filter
            (fun t =>
               match description t with
               | Some d =>
                   includes (toLowerCase d) (toLowerCase searchTerm)
                   || includes (toLowerCase (category_name t))
                               (toLowerCase searchTerm)
               | None => false
               end)
            transactions) /\
  (toLowerCase searchTerm = "" ->
   filteredTransactions toLowerCase searchTerm transactions
   = Some transactions).
Proof.
  intros Hd.
  assert (Hf : Forall (fun t => matches_search toLowerCase searchTerm t
                                <> None) transactions).
  { apply Forall_forall. intros t Hin.
    rewrite Forall_forall in Hd. specialize (Hd t Hin).
    unfold matches_search. destruct (description t); [|congruence].
    destruct (includes _ _); discriminate. }
  unfold filteredTransactions. rewrite (filter_throwing_some _ _ Hf).
  assert (Hext : forall t,
             match matches_search toLowerCase searchTerm t with
             | Some b => b
             | None => false
             end
             = match description t with
               | Some d =>
                   includes (toLowerCase d) (toLowerCase searchTerm)
                   || includes (toLowerCase (category_name t))
                               (toLowerCase searchTerm)
               | None => false
               end).
  { intros t. unfold matches_search. destruct (description t); [|reflexivity].
    destruct (includes (toLowerCase s) (toLowerCase searchTerm)); reflexivity. }
  split.
  - f_equal. apply filter_ext. exact Hext.
  - intros Hempty. f_equal.
    rewrite (filter_ext _ _ Hext).
    clear Hf. induction Hd as [|t l Ht _ IH]; [reflexivity|].
    cbn [filter]. rewrite IH. destruct (description t) as [d|]; [|congruence].
    now rewrite Hempty, includes_empty.
Qed.

Lemma search_result_witness :
  filteredTransactions (fun s => s) "" Examples.march
  = Some (filter
            (fun t =>
               match description t with
               | Some d => includes d "" || includes (category_name t) ""
               | None => false
               end)
            Examples.march) /\
  ("" = "" ->
   filteredTransactions (fun s => s) "" Examples.march = Some Examples.march).
Proof.
  apply (search_result (fun s => s) "" Examples.march).
  repeat constructor; discriminate.
Defined.

(** A click on a column header leaves that column as the sort field with a
    direction that is ["asc"] or ["desc"]: ascending on a new column, the
    other direction on the current one. A second click on the same header
    always gives descending on a new column, and gives back the sorting
    one started from on the current column. *)
Theorem sort_clicks (s : Sorting) (field : string) :
  sortField (handleSort s field) = field /\
  (sortDirection (handleSort s field) = "asc" \/
   sortDirection (handleSort s field) = "desc") /\
  (sortField s <> field ->
   handleSort s field = {| sortField := field; sortDirection := "asc" |} /\
   handleSort (handleSort s field) field
   = {| sortField := field; sortDirection := "desc" |}) /\
  (sortField s = field ->
   sortDirection s = "asc" \/ sortDirection s = "desc" ->
   handleSort (handleSort s field) field = s).
Proof.
  assert (Hnew : forall s0, sortField s0 <> field ->
                 handleSort s0 field
                 = {| sortField := field; sortDirection := "asc" |}).
  { intros s0 Hne. unfold handleSort.
    apply String.eqb_neq in Hne. now rewrite Hne. }
  assert (Hsame : forall s0, sortField s0 = field ->
                  handleSort s0 field
                  = {| sortField := field;
                       sortDirection :=
                         if String.eqb (sortDirection s0) "asc"
                         then "desc" else "asc" |}).
  { intros s0 He. unfold handleSort.
    rewrite (proj2 (String.eqb_eq _ _) He). now rewrite He. }
  split; [|split; [|split]].
  - destruct (String.eqb (sortField s) field) eqn:Hf.
    + apply String.eqb_eq in Hf. now rewrite (Hsame s Hf).
    + apply String.eqb_neq in Hf. now rewrite (Hnew s Hf).
  - destruct (String.eqb (sortField s) field) eqn:Hf.
    + apply String.eqb_eq in Hf. rewrite (Hsame s Hf). cbn [sortDirection].
      destruct (String.eqb (sortDirection s) "asc"); [now right | now left].
    + apply String.eqb_neq in Hf. rewrite (Hnew s Hf). now left.
  - intros Hne. rewrite (Hnew s Hne). split; [reflexivity|].
    now rewrite (Hsame {| sortField := field; sortDirection := "asc" |}
                   eq_refl).
  - intros He Hdir. rewrite (Hsame s He).
    rewrite (Hsame {| sortField := field;
                      sortDirection :=
                        if String.eqb (sortDirection s) "asc"
                        then "desc" else "asc" |} eq_refl).
    cbn [sortDirection]. destruct s as [f d]. cbn in *. subst f.
    destruct Hdir as [-> | ->]; reflexivity.
Qed.

End ControlsProofs.

(** ** The thunks: the token guard and the error message *)

Module ThunkProofs.
Import LocalStorage Thunk.


(** Without a token in [localStorage] (none, or an empty one) a guarded
    thunk sends no request and is rejected with
    ["No authentication token found"], whatever the server would answer. *)
Theorem no_token_no_request {A B : Type}
  (fallback : string) (result : A -> B) (response : Response A)
  (ls : Storage) :
  truthy (getItem ls "token") = false ->
  guarded fallback result response ls
  = {| outcome := rejected "No authentication token found"; sent := [] |}.
Proof. intros H. unfold guarded. now rewrite H. Qed.

Lemma no_token_no_request_witness :
  Thunk.updateInvestment (ok (Examples.holding 1 10 5))
    (setItem (fun _ => None) "token" "")
  = {| outcome := rejected "No authentication token found"; sent := [] |}.
Proof.
  exact (no_token_no_request "Failed to update investment." (fun data => data)
           (ok (Examples.holding 1 10 5))
           (setItem (fun _ => None) "token" "") eq_refl).
Defined.





End ThunkProofs.

(** ** The request of [getTransactions] *)

Module QueryProofs.
Import Query.

(** Of everything the two pages hand to [getTransactions], only [limit]
    reaches the query: the type, category, dates, amounts, sorting and
    offset of the Transactions page and the month, year and offset of the
    Dashboard are under names the thunk does not read. *)
Theorem only_limit_is_sent
  (parseFloat : string -> number) (f : Filters)
  (currentMonth currentYear : number) :
  getTransactions_query (transactions_page_params parseFloat f)
  = (if truthy (js_number (itemsPerPage f))
     then [("limit", js_number (itemsPerPage f))] else []) /\
  getTransactions_query (dashboard_params currentMonth currentYear)
  = [("limit", js_number 5)].
Proof.
  split.
  - unfold getTransactions_query, transactions_page_params.
    cbn [get String.eqb Ascii.eqb Bool.eqb truthy app].
    destruct (negb (strict_eq (itemsPerPage f) 0 || isNaN (itemsPerPage f)));
      reflexivity.
  - reflexivity.
Qed.

(** Two settings of the page that differ in every filter but the page size
    produce the same query. *)
Example filters_do_not_change_the_query :
  let base := {| transactionType := "all"; selectedCategory := "all";
                 startDate := ""; endDate := "";
                 minAmount := ""; maxAmount := "";
                 sortField := "date"; sortDirection := "desc";
                 itemsPerPage := 10; currentPage := 1 |} in
  let narrowed := {| transactionType := "expense"; selectedCategory := "3";
                     startDate := "2024-03-01"; endDate := "2024-03-31";
                     minAmount := "10"; maxAmount := "500";
                     sortField := "amount"; sortDirection := "asc";
                     itemsPerPage := 10; currentPage := 4 |} in
  getTransactions_query (transactions_page_params (fun _ => 0) base)
  = getTransactions_query (transactions_page_params (fun _ => 0) narrowed).
Proof. reflexivity. Qed.

End QueryProofs.

(** ** The auth slice *)

Module AuthProofs.
Import LocalStorage Thunk Auth.

Lemma initial_consistent (ls : Storage) : consistent (initialState ls, ls).
Proof.
  split; [reflexivity|]. cbn. unfold truthy.
  destruct (getItem ls "token"); [discriminate | discriminate].
Qed.

Lemma dispatch_consistent (store : AuthState * Storage) (event : Event) :
  consistent store -> consistent (dispatch store event).
Proof.
  destruct store as [state ls]. intros [Hsync Hauth]. cbn in Hsync, Hauth.
  destruct event as [| |response|response|response|response];
    cbn [dispatch reducer pending].
  - split; [reflexivity | discriminate].
  - split; [exact Hsync | exact Hauth].
  - destruct response as [data|detail]; cbn [login reducer].
    + split; [reflexivity | discriminate].
    + split; [exact Hsync | discriminate].
  - destruct response as [data|detail]; cbn [register reducer];
      (split; [exact Hsync | exact Hauth]).
  - destruct (outcome (getUserProfile response ls)) as [u|payload];
      cbn [reducer].
    + split; [exact Hsync | exact Hauth].
    + destruct (String.eqb payload "Invalid authentication credentials").
      * split; [reflexivity | discriminate].
      * split; [exact Hsync | exact Hauth].
  - destruct (outcome (updateProfile response ls)) as [u|payload];
      cbn [reducer]; (split; [exact Hsync | exact Hauth]).
Qed.

(** After any sequence of logins, registrations, profile requests, logouts
    and error clearings, with any answers of the server, the token of the
    state is the token in [localStorage], and a state that is authenticated
    has a token. *)
Theorem token_always_in_step (ls : Storage) (events : list Event) :
  token (fst (run ls events)) = getItem (snd (run ls events)) "token" /\
  (isAuthenticated (fst (run ls events)) = true ->
   token (fst (run ls events)) <> None).
Proof.
  change (consistent (run ls events)). unfold run.
  generalize (initial_consistent ls).
  generalize (initialState ls, ls).
  induction events as [|e es IH]; intros store H; [exact H|].
  cbn [fold_left]. apply IH. now apply dispatch_consistent.
Qed.

(** [logout] empties the session: no user, no token, not authenticated, both
    tokens gone from [localStorage] and nothing else in it touched; from
    then on a protected route redirects to [/login] and every guarded thunk
    is rejected without a request. *)
Theorem logout_ends_the_session (state : AuthState) (ls : Storage) :
  let state' := fst (dispatch (state, ls) Logout) in
  let ls' := snd (dispatch (state, ls) Logout) in
  user state' = None /\
  token state' = None /\
  isAuthenticated state' = false /\
  getItem ls' "token" = None /\
  getItem ls' "refreshToken" = None /\
  (forall key, key <> "token" -> key <> "refreshToken" ->
               getItem ls' key = getItem ls key) /\
  (forall (E : Type) (page : E), ProtectedRoute state' page = Navigate "/login") /\
  (forall (A B : Type) fallback (result : A -> B) response,
      guarded fallback result response ls'
      = {| outcome := rejected "No authentication token found";
           sent := [] |}).
Proof.
  cbv zeta. cbn [dispatch reducer fst snd user token isAuthenticated].
  repeat split.
  intros key H1 H2. unfold getItem, removeItem.
  apply String.eqb_neq in H1, H2. now rewrite H1, H2.
Qed.


(** A successful login stores both tokens, authenticates the state with the
    access token and clears the error; protected routes then render their
    page. *)
Theorem login_opens_the_session
  (state : AuthState) (ls : Storage) (tokens : Tokens) :
  let state' := fst (dispatch (state, ls) (Login (ok tokens))) in
  let ls' := snd (dispatch (state, ls) (Login (ok tokens))) in
  isAuthenticated state' = true /\
  token state' = Some (access_token tokens) /\
  getItem ls' "token" = Some (access_token tokens) /\
  getItem ls' "refreshToken" = Some (refresh_token tokens) /\
  error state' = None /\
  loading state' = false /\
  (forall (E : Type) (page : E), ProtectedRoute state' page = Element page).
Proof. cbv zeta. repeat split. Qed.

(** A rejected profile request signs the user out exactly when the message
    is ["Invalid authentication credentials"]: then the token leaves the
    state and [localStorage] while the cached user stays; with any other
    message the session is untouched. *)
Theorem profile_rejection (state : AuthState) (ls : Storage) (payload : string) :
  let state' := fst (reducer state ls (getUserProfile_rejected payload)) in
  let ls' := snd (reducer state ls (getUserProfile_rejected payload)) in
  user state' = user state /\
  error state' = Some payload /\
  (payload = "Invalid authentication credentials" ->
   isAuthenticated state' = false /\ token state' = None /\
   getItem ls' "token" = None /\ getItem ls' "refreshToken" = None) /\
  (payload <> "Invalid authentication credentials" ->
   isAuthenticated state' = isAuthenticated state /\
   token state' = token state /\
   forall key, getItem ls' key = getItem ls key).
Proof.
  cbv zeta. cbn [reducer].
  destruct (String.eqb payload "Invalid authentication credentials") eqn:Hp.
  - apply String.eqb_eq in Hp.
    split; [reflexivity|]. split; [reflexivity|]. split.
    + intros _. repeat split.
    + intros Hne. contradiction.
  - apply String.eqb_neq in Hp.
    split; [reflexivity|]. split; [reflexivity|]. split.
    + intros He. contradiction.
    + intros _. repeat split.
Qed.

End AuthProofs.

(** ** The transactions and goals slices *)

Module SlicesProofs.
Import Transaction.

(** A rejected thunk of the transactions slice or of the goals slice sets
    [loading] to [false] and [error] to the rejection value and leaves the
    cached data as it was. *)
Theorem other_slices_rejected_keep_cache
  (st : TransactionsSlice.TransactionsState) (at_ : TransactionsSlice.Action)
  (vt : string)
  (sg : Goals.GoalsState) (ag : GoalsSlice.Action) (vg : string) :
  TransactionsSlice.rejection at_ = Some vt ->
  GoalsSlice.rejection ag = Some vg ->
  TransactionsSlice.reducer st at_
  = {| TransactionsSlice.transactions := TransactionsSlice.transactions st;
       TransactionsSlice.transaction := TransactionsSlice.transaction st;
       TransactionsSlice.monthlySummary := TransactionsSlice.monthlySummary st;
       TransactionsSlice.loading := false;
       TransactionsSlice.error := Some vt |} /\
  GoalsSlice.reducer sg ag
  = ({| Goals.goals := Goals.goals sg;
        Goals.goal := Goals.goal sg;
        Goals.loading := false;
        Goals.error := Some vg |}, []).
Proof.
  intros Ht Hg. split.
  - destruct at_; cbn [TransactionsSlice.rejection] in Ht;
      try discriminate; injection Ht as <-; reflexivity.
  - destruct ag; cbn [GoalsSlice.rejection] in Hg;
      try discriminate; injection Hg as <-; reflexivity.
Qed.

Lemma other_slices_rejected_keep_cache_witness :
  TransactionsSlice.reducer TransactionsSlice.initialState
    (TransactionsSlice.deleteTransaction_rejected "Failed to delete transaction.")
  = {| TransactionsSlice.transactions := [];
       TransactionsSlice.transaction := None;
       TransactionsSlice.monthlySummary := [];
       TransactionsSlice.loading := false;
       TransactionsSlice.error := Some "Failed to delete transaction." |} /\
  GoalsSlice.reducer Examples.goals_state
    (GoalsSlice.getGoals_rejected "Failed to fetch goals.")
  = ({| Goals.goals := Goals.goals Examples.goals_state;
        Goals.goal := Goals.goal Examples.goals_state;
        Goals.loading := false;
        Goals.error := Some "Failed to fetch goals." |}, []).
Proof.
  exact (other_slices_rejected_keep_cache TransactionsSlice.initialState
           (TransactionsSlice.deleteTransaction_rejected
              "Failed to delete transaction.")
           "Failed to delete transaction."
           Examples.goals_state
           (GoalsSlice.getGoals_rejected "Failed to fetch goals.")
           "Failed to fetch goals." eq_refl eq_refl).
Defined.

(** An edited transaction keeps, at its place in the list, the category
    name that was cached, while its category id, amount, type and other
    fields become the payload's; a transaction with another id is
    untouched. *)
Theorem update_transaction_keeps_category_name
  (state : TransactionsSlice.TransactionsState)
  (payload : TransactionsSlice.Transaction)
  (i : nat) (t : TransactionWithCategory) :
  nth_error (TransactionsSlice.transactions state) i = Some t ->
  exists t',
    nth_error
      (TransactionsSlice.transactions
         (TransactionsSlice.reducer state
            (TransactionsSlice.updateTransaction_fulfilled payload))) i
    = Some t' /\
    category_name t' = category_name t /\
    (strict_eq (id t) (TransactionsSlice.t_id payload) = true ->
     category_id t' = TransactionsSlice.t_category_id payload /\
     amount t' = TransactionsSlice.t_amount payload /\
     type t' = TransactionsSlice.t_type payload /\
     t' = TransactionsSlice.with_category payload (category_name t)) /\
    (strict_eq (id t) (TransactionsSlice.t_id payload) = false -> t' = t).
Proof.
  intros Hi.
  cbn [TransactionsSlice.reducer TransactionsSlice.transactions].
  rewrite nth_error_map, Hi. cbn [option_map].
  eexists. split; [reflexivity|].
  destruct (strict_eq (id t) (TransactionsSlice.t_id payload));
    repeat split; discriminate.
Qed.

End SlicesProofs.

(** ** Where the store divides *)

Module DivisionProofs.

(** In the investments slice only [updateInvestment.fulfilled] divides: once
    for every cached position the payload names, each time by
    [quantity * avg_buy_price] of the payload, whatever its value; every
    other action divides nothing. *)
Theorem divisions_of_the_investments_slice
  (state : Investments.InvestmentsState) (action : Investments.Action) :
  divisors (Investments.reducer state action)
  = match action with
    | Investments.updateInvestment_fulfilled payload =>
        map (fun _ => Investments.quantity payload
                      * Investments.avg_buy_price payload)
            (filter (fun e => strict_eq (Investments.id (Investments.base e))
                                        (Investments.id payload))
                    (Investments.portfolioWithMarketData state))
    | _ => []
    end.
Proof.
  destruct action; try reflexivity.
  apply InvestmentsProofs.update_divisors.
Qed.

(** No action of the goals slice divides by a number that is not strictly
    positive, and only [createGoal.fulfilled] and [updateGoal.fulfilled]
    divide at all, at most once. *)
Theorem goals_slice_divides_by_positive_only
  (state : Goals.GoalsState) (action : GoalsSlice.Action) :
  Forall (fun d => gt d 0 = true)
         (divisors (GoalsSlice.reducer state action)) /\
  (List.length (divisors (GoalsSlice.reducer state action)) <= 1)%nat /\
  ((forall payload, action <> GoalsSlice.createGoal_fulfilled_action payload) ->
   (forall payload, action <> GoalsSlice.updateGoal_fulfilled_action payload) ->
   divisors (GoalsSlice.reducer state action) = []).
Proof.
  assert (Hlen : forall payload,
             (List.length (divisors (Goals.progressPercentage payload)) <= 1)%nat).
  { intros payload. unfold Goals.progressPercentage.
    destruct (gt (Goals.target_amount payload) 0); cbn; auto. }
  destruct action; cbn [GoalsSlice.reducer];
    try (split; [constructor | split; [cbn; auto | reflexivity]]).
  - rewrite GoalsProofs.createGoal_divisors.
    split; [apply GoalsProofs.progressPercentage_divisors|].
    split; [apply Hlen|]. intros Hc _. now destruct (Hc payload).
  - rewrite GoalsProofs.updateGoal_divisors.
    split; [apply GoalsProofs.progressPercentage_divisors|].
    split; [apply Hlen|]. intros _ Hu. now destruct (Hu payload).
Qed.

End DivisionProofs.

(** ** Sample runs *)

Module SampleRuns.
Import Transaction.

Lemma update_transaction_keeps_category_name_witness :
  exists t',
    nth_error
      (TransactionsSlice.transactions
         (TransactionsSlice.reducer Samples.march_state
            (TransactionsSlice.updateTransaction_fulfilled Samples.edited))) 1
    = Some t' /\
    category_name t' = "Groceries" /\
    (strict_eq 2 2 = true ->
     category_id t' = 9 /\
     amount t' = 45 /\
     type t' = Some "expense" /\
     t' = TransactionsSlice.with_category Samples.edited "Groceries") /\
    (strict_eq 2 2 = false ->
     t' = Examples.transaction 2 30 (Some "expense")).
Proof.
  exact (SlicesProofs.update_transaction_keeps_category_name
           Samples.march_state Samples.edited 1
           (Examples.transaction 2 30 (Some "expense")) eq_refl).
Defined.

(** A session: a failed login, a login, a profile request that the server
    refuses as invalid, and a second login. The token follows. *)
Example session_tokens :
  let ls0 : LocalStorage.Storage := fun _ => None in
  let tokens a := {| Auth.access_token := a; Auth.refresh_token := "r" |} in
  map (fun events =>
         (Auth.isAuthenticated (fst (Auth.run ls0 events)),
          Auth.token (fst (Auth.run ls0 events)),
          LocalStorage.getItem (snd (Auth.run ls0 events)) "token"))
      [[Auth.Login (Thunk.failed None)];
       [Auth.Login (Thunk.ok (tokens "t1"))];
       [Auth.Login (Thunk.ok (tokens "t1"));
        Auth.GetUserProfile
          (Thunk.failed (Some "Invalid authentication credentials"))];
       [Auth.Login (Thunk.ok (tokens "t1")); Auth.Logout;
        Auth.Login (Thunk.ok (tokens "t2"))]]
  = [(false, None, None);
     (true, Some "t1", Some "t1");
     (false, None, None);
     (true, Some "t2", Some "t2")].
Proof. reflexivity. Qed.

End SampleRuns.
